(** * poker_equity: hand evaluator, range expander and equity estimator

    A shallow embedding of [poker_equity/evaluator.py], [poker_equity/ranges.py],
    [poker_equity/cards.py] (deck construction) and [poker_equity/equity.py].

    Conventions.  Python integers are [Z]; [%] and [//] on a positive divisor
    are [Z.modulo] and [Z.div] (both floor).  Python exceptions are the
    [Raise] branch of [result].  Tuples of integers are lists of [Z] and are
    compared the way Python compares tuples.  Floats are IEEE-754 binary64
    values ([PrimFloat]). *)

From Stdlib Require Import Ascii String.
From Stdlib Require Import ZArith List Bool Lia Permutation Sorted FinFun.
From Stdlib Require Import PrimFloat SpecFloat FloatOps.
Import ListNotations.

Local Open Scope Z_scope.

(* ================================================================= *)
(** ** Exceptions *)

Inductive exn : Type :=
| AssertionError (msg : string)
| ValueError (msg : string)
| IndexError
| ZeroDivisionError
| OverflowError
| CardParseError (msg : string).

Inductive result (A : Type) : Type :=
| Ok (a : A)
| Raise (e : exn).

Arguments Ok {A} a.
Arguments Raise {A} e.

Definition bind {A B} (r : result A) (k : A -> result B) : result B :=
  match r with
  | Ok a => k a
  | Raise e => Raise e
  end.

Notation "'let*' x ':=' r 'in' k" := (bind r (fun x => k))
  (at level 10, x pattern, r at level 100, k at level 200).

Definition is_ok {A} (r : result A) : bool :=
  match r with Ok _ => true | Raise _ => false end.

(* ================================================================= *)
(** ** Python built-ins used by the evaluator *)

Module Py.

(** [sorted(xs, reverse=True)]: an insertion sort, generic in the strict
    comparison [gt].  Every use in the program sorts values whose key is the
    value itself, so elements that compare equal are identical and the
    stability of Python's sort is not observable. *)
Section Sorting.
Context {A : Type} (gt : A -> A -> bool).

Fixpoint insert_desc (x : A) (l : list A) : list A :=
  match l with
  | [] => [x]
  | y :: l' => if gt y x then y :: insert_desc x l' else x :: l
  end.

Fixpoint sorted_desc (l : list A) : list A :=
  match l with
  | [] => []
  | x :: l' => insert_desc x (sorted_desc l')
  end.
End Sorting.

(** [set(xs)] followed by a traversal: the distinct elements of [xs]. *)
Definition distinct (l : list Z) : list Z := nodup Z.eq_dec l.

Definition mem (x : Z) (l : list Z) : bool := existsb (Z.eqb x) l.

(** [max(xs)]: raises [ValueError] on an empty sequence. *)
Definition max (l : list Z) : result Z :=
  match l with
  | [] => Raise (ValueError "max() arg is an empty sequence")
  | x :: l' => Ok (fold_left Z.max l' x)
  end.

(** [xs[i]] for a non-negative index. *)
Definition index {A} (l : list A) (i : nat) : result A :=
  match nth_error l i with
  | Some x => Ok x
  | None => Raise IndexError
  end.

(** [itertools.combinations(xs, k)], in the order itertools yields them. *)
Fixpoint combinations {A} (l : list A) (k : nat) : list (list A) :=
  match k with
  | O => [[]]
  | S k' =>
      match l with
      | [] => []
      | x :: l' => List.map (cons x) (combinations l' k') ++ combinations l' k
      end
  end.

(** Comparison of tuples of integers: lexicographic, a proper prefix being
    smaller. *)
Fixpoint tuple_gtb (a b : list Z) : bool :=
  match a, b with
  | [], _ => false
  | _ :: _, [] => true
  | x :: a', y :: b' =>
      if x >? y then true else if x <? y then false else tuple_gtb a' b'
  end.

Fixpoint tuple_eqb (a b : list Z) : bool :=
  match a, b with
  | [], [] => true
  | x :: a', y :: b' => (x =? y) && tuple_eqb a' b'
  | _, _ => false
  end.

End Py.

(* ================================================================= *)
(** ** evaluator.py *)

(** A score is the pair [(category, tiebreakers)]. *)
Definition score : Type := Z * list Z.

Definition score_gtb (a b : score) : bool :=
  if fst a >? fst b then true
  else if fst a <? fst b then false
  else Py.tuple_gtb (snd a) (snd b).

Definition score_eqb (a b : score) : bool :=
  (fst a =? fst b) && Py.tuple_eqb (snd a) (snd b).

Definition score_ltb (a b : score) : bool := score_gtb b a.

(** [a <= b] in Python's order on scores. *)
Definition score_le (a b : score) : Prop := score_gtb a b = false.
Definition score_lt (a b : score) : Prop := score_gtb b a = true.

Definition _rank (card : Z) : Z := card mod 13.
Definition _suit (card : Z) : Z := card / 13.

(** Order on [(count, rank)] pairs used to sort the rank groups. *)
Definition group_gtb (a b : Z * Z) : bool :=
  if fst a >? fst b then true
  else if fst a <? fst b then false
  else snd a >? snd b.

(** The sliding window of [_is_straight]: [k] iterations remain and [l] is
    [ranks[i:]]. *)
Definition window_ok (window : list Z) : bool :=
  match window with
  | [a; b; c; d; e] =>
      (a - e =? 4) && ((a - 1 =? b) && (b - 1 =? c) && (c - 1 =? d) && (d - 1 =? e))
  | _ => false
  end.

Fixpoint window_scan (l : list Z) (k : nat) : option Z :=
  match k with
  | O => None
  | S k' =>
      let window := firstn 5 l in
      if window_ok window then Some (hd 0 window)
      else window_scan (tl l) k'
  end.

Definition wheel : list Z := [12; 3; 2; 1; 0].

Definition _is_straight (sorted_unique_ranks_desc : list Z) : bool * Z :=
  let ranks := sorted_unique_ranks_desc in
  match window_scan ranks (length ranks - 3) with
  | Some high => (true, high)
  | None =>
      if forallb (fun w => Py.mem w ranks) wheel then (true, 3)
      else (false, -1)
  end.

(** The insertion-ordered dictionary [counts]. *)
Fixpoint dict_get (d : list (Z * Z)) (k : Z) (dflt : Z) : Z :=
  match d with
  | [] => dflt
  | (k', v) :: d' => if k' =? k then v else dict_get d' k dflt
  end.

Fixpoint dict_set (d : list (Z * Z)) (k v : Z) : list (Z * Z) :=
  match d with
  | [] => [(k, v)]
  | (k', v') :: d' => if k' =? k then (k', v) :: d' else (k', v') :: dict_set d' k v
  end.

Definition count_ranks (rs : list Z) : list (Z * Z) :=
  fold_left (fun counts r => dict_set counts r (dict_get counts r 0 + 1)) rs [].

(** The body of [_evaluate5] once [rs] (ranks, descending) and [is_flush] are
    known. *)
Definition classify (rs : list Z) (is_flush : bool) : result score :=
  let counts := count_ranks rs in
  let groups := Py.sorted_desc group_gtb (List.map (fun rc => (snd rc, fst rc)) counts) in
  let uniq_desc := Py.sorted_desc Z.gtb (Py.distinct rs) in
  let '(is_straight, straight_high) := _is_straight uniq_desc in
  if is_straight && is_flush then Ok (8, [straight_high])
  else
    let* g0 := Py.index groups 0 in
    if fst g0 =? 4 then
      let quad_rank := snd g0 in
      let* kicker := Py.max (filter (fun r => negb (r =? quad_rank)) rs) in
      Ok (7, [quad_rank; kicker])
    else if (fst g0 =? 3) && (2 <=? length groups)%nat
            && (match nth_error groups 1 with Some g1 => 2 <=? fst g1 | None => false end)
    then
      let trips := snd g0 in
      let* pair_rank := Py.max (List.map snd (filter (fun g => 2 <=? fst g) (tl groups))) in
      Ok (6, [trips; pair_rank])
    else if is_flush then Ok (5, rs)
    else if is_straight then Ok (4, [straight_high])
    else if fst g0 =? 3 then
      let trips := snd g0 in
      let kickers := firstn 2 (Py.sorted_desc Z.gtb (filter (fun r => negb (r =? trips)) rs)) in
      Ok (3, trips :: kickers)
    else if (fst g0 =? 2) && (2 <=? length groups)%nat
            && (match nth_error groups 1 with Some g1 => fst g1 =? 2 | None => false end)
    then
      let pairs := Py.sorted_desc Z.gtb (List.map snd (filter (fun g => fst g =? 2) groups)) in
      let* kicker := Py.max (filter (fun r => negb (Py.mem r pairs)) rs) in
      let* p0 := Py.index pairs 0 in
      let* p1 := Py.index pairs 1 in
      Ok (2, [p0; p1; kicker])
    else if fst g0 =? 2 then
      let pair_rank := snd g0 in
      let kickers := firstn 3 (filter (fun r => negb (r =? pair_rank)) rs) in
      Ok (1, pair_rank :: kickers)
    else Ok (0, rs).

Definition is_flush_of (ss : list Z) : bool :=
  (length (Py.distinct ss) =? 1)%nat.

Definition _evaluate5 (cards5 : list Z) : result score :=
  let rs := Py.sorted_desc Z.gtb (List.map _rank cards5) in
  let ss := List.map _suit cards5 in
  classify rs (is_flush_of ss).

(** The loop of [evaluate7]: [best] is replaced whenever a strictly greater
    score is met. *)
Fixpoint best_of (combs : list (list Z)) (best : score) : result score :=
  match combs with
  | [] => Ok best
  | comb :: rest =>
      let* s := _evaluate5 comb in
      best_of rest (if score_gtb s best then s else best)
  end.

Definition evaluate7 (cards7 : list Z) : result score :=
  if (length cards7 =? 7)%nat then best_of (Py.combinations cards7 5) (-1, [])
  else Raise (AssertionError "evaluate7 attend exactement 7 cartes").

(* ================================================================= *)
(** ** Strings *)

Module Str.

Definition code (c : ascii) : nat := nat_of_ascii c.

(** [str.isspace] on an ASCII character, which is also the class [\s]. *)
Definition is_space (c : ascii) : bool :=
  let n := code c in
  ((9 <=? n) && (n <=? 13) || (28 <=? n) && (n <=? 32))%nat.

Definition upper (c : ascii) : ascii :=
  let n := code c in
  if ((97 <=? n) && (n <=? 122))%nat then ascii_of_nat (n - 32) else c.

Definition lower (c : ascii) : ascii :=
  let n := code c in
  if ((65 <=? n) && (n <=? 90))%nat then ascii_of_nat (n + 32) else c.

Definition eqb (a b : ascii) : bool := Ascii.eqb a b.

Fixpoint lstrip (s : list ascii) : list ascii :=
  match s with
  | c :: s' => if is_space c then lstrip s' else s
  | [] => []
  end.

Definition strip (s : list ascii) : list ascii := rev (lstrip (rev (lstrip s))).

(** [re.split(sep+, s)] with the empty pieces dropped: the maximal runs of
    characters that are not separators. *)
Fixpoint runs (sep : ascii -> bool) (s : list ascii) (cur : list ascii) : list (list ascii) :=
  match s with
  | [] => match cur with [] => [] | _ => [rev cur] end
  | c :: s' =>
      if sep c then
        match cur with
        | [] => runs sep s' []
        | _ => rev cur :: runs sep s' []
        end
      else runs sep s' (c :: cur)
  end.

(** [s.split(d, 1)] when [d] occurs in [s]: the text before the first [d]
    and the text after it. *)
Fixpoint split_first (d : ascii) (s : list ascii) : option (list ascii * list ascii) :=
  match s with
  | [] => None
  | c :: s' =>
      if eqb c d then Some ([], s')
      else match split_first d s' with
           | Some (l, r) => Some (c :: l, r)
           | None => None
           end
  end.

Fixpoint index_of (c : ascii) (s : list ascii) : option nat :=
  match s with
  | [] => None
  | x :: s' => if eqb x c then Some O
               else match index_of c s' with Some i => Some (S i) | None => None end
  end.

End Str.

(** [range(a, b)] and [range(a, b, -1)]. *)
Definition py_range (a b : Z) : list Z :=
  List.map (fun i => a + Z.of_nat i) (seq 0 (Z.to_nat (b - a))).

Definition py_range_down (a b : Z) : list Z :=
  List.map (fun i => a - Z.of_nat i) (seq 0 (Z.to_nat (a - b))).

(* ================================================================= *)
(** ** ranges.py *)

Definition combo : Type := Z * Z.

Module Ranges.

Definition _RANKS : list ascii :=
  ["2"; "3"; "4"; "5"; "6"; "7"; "8"; "9"; "T"; "J"; "Q"; "K"; "A"]%char.

Definition _rank_idx (rc : ascii) : result Z :=
  match Str.index_of (Str.upper rc) _RANKS with
  | Some i => Ok (Z.of_nat i)
  | None => Raise (ValueError "substring not found")
  end.

Definition _card (rank_idx suit_idx : Z) : Z := suit_idx * 13 + rank_idx.

(** Python sets of combos: duplicate-free lists; [|=] keeps the elements
    already present and appends the new ones. *)
Definition combo_eqb (a b : combo) : bool := (fst a =? fst b) && (snd a =? snd b).

Definition set_add (s : list combo) (c : combo) : list combo :=
  if existsb (combo_eqb c) s then s else s ++ [c].

Definition set_union (s t : list combo) : list combo := fold_left set_add t s.

(** [tuple(sorted((c1, c2)))] *)
Definition sorted2 (c1 c2 : Z) : combo := if c2 <? c1 then (c2, c1) else (c1, c2).

Definition _all_pair_combos (r : Z) : list combo :=
  let cards := List.map (fun s => _card r s) (py_range 0 4) in
  fold_left
    (fun combos i =>
       fold_left
         (fun combos j =>
            set_add combos (sorted2 (nth (Z.to_nat i) cards 0) (nth (Z.to_nat j) cards 0)))
         (py_range (i + 1) 4) combos)
    (py_range 0 4) [].

Definition _all_suited_combos (r_hi r_lo : Z) : list combo :=
  fold_left
    (fun combos s => set_add combos (sorted2 (_card r_hi s) (_card r_lo s)))
    (py_range 0 4) [].

Definition _all_offsuit_combos (r_hi r_lo : Z) : list combo :=
  fold_left
    (fun combos s1 =>
       fold_left
         (fun combos s2 =>
            if s1 =? s2 then combos
            else set_add combos (sorted2 (_card r_hi s1) (_card r_lo s2)))
         (py_range 0 4) combos)
    (py_range 0 4) [].

Definition _all_both_combos (r_hi r_lo : Z) : list combo :=
  set_union (_all_suited_combos r_hi r_lo) (_all_offsuit_combos r_hi r_lo).

(** A successful match of the regular expression [_TOKEN]. *)
Record token_match : Type := {
  g_hi : ascii;
  g_lo : option ascii;
  g_so : option ascii;
  g_plus : bool
}.

Definition is_rank_char (c : ascii) : bool :=
  existsb (Str.eqb (Str.upper c)) _RANKS.

Definition is_so_char (c : ascii) : bool :=
  Str.eqb (Str.upper c) "S"%char || Str.eqb (Str.upper c) "O"%char.

(** An optional one-character group: greedy, and since the classes of
    [_TOKEN] are pairwise disjoint no backtracking can change the outcome. *)
Definition opt_group (cls : ascii -> bool) (s : list ascii) : option ascii * list ascii :=
  match s with
  | c :: s' => if cls c then (Some c, s') else (None, s)
  | [] => (None, s)
  end.

Definition _TOKEN_match (s : list ascii) : option token_match :=
  match Str.lstrip s with
  | hi :: s1 =>
      if is_rank_char hi then
        let '(lo, s2) := opt_group is_rank_char s1 in
        let '(so, s3) := opt_group is_so_char s2 in
        let '(plus, s4) := opt_group (Str.eqb "+"%char) s3 in
        if forallb Str.is_space s4 then
          Some {| g_hi := hi; g_lo := lo; g_so := so;
                  g_plus := match plus with Some _ => true | None => false end |}
        else None
      else None
  | [] => None
  end.

Definition add_nonpair (so : option ascii) (combos : list combo) (h l : Z) : list combo :=
  match so with
  | None => set_union combos (_all_both_combos h l)
  | Some c =>
      if Str.eqb (Str.lower c) "s"%char then set_union combos (_all_suited_combos h l)
      else set_union combos (_all_offsuit_combos h l)
  end.

Definition _expand_simple_token (hi : ascii) (lo : option ascii) (so : option ascii)
    (plus : bool) : result (list combo) :=
  let* hi_i := _rank_idx hi in
  let* (hi_i, lo_i, is_pair) :=
    match lo with
    | None => Ok (hi_i, hi_i, true)
    | Some lo =>
        let* lo_i := _rank_idx lo in
        let is_pair := Str.eqb (Str.upper hi) (Str.upper lo) in
        if negb is_pair && (hi_i <? lo_i) then Ok (lo_i, hi_i, is_pair)
        else Ok (hi_i, lo_i, is_pair)
    end in
  if (is_pair : bool) then
    let start := hi_i in
    let* stop := _rank_idx "A"%char in
    Ok (fold_left (fun combos r => set_union combos (_all_pair_combos r))
          (if plus then py_range start (stop + 1) else [start]) [])
  else if plus then
    let* ace := _rank_idx "A"%char in
    Ok (fold_left
          (fun combos h => if h =? lo_i then combos else add_nonpair so combos h lo_i)
          (py_range hi_i (ace + 1)) [])
  else Ok (add_nonpair so [] hi_i lo_i).

Definition invalid (msg : string) : exn := ValueError msg.

Definition opt_lower (so : option ascii) : option ascii :=
  match so with Some c => Some (Str.lower c) | None => None end.

Definition opt_eqb (a b : option ascii) : bool :=
  match a, b with
  | Some x, Some y => Str.eqb x y
  | None, None => true
  | _, _ => false
  end.

Fixpoint union_all (steps : list (result (list combo))) (combos : list combo)
    : result (list combo) :=
  match steps with
  | [] => Ok combos
  | r :: rest => let* s := r in union_all rest (set_union combos s)
  end.

Definition _expand_dash_range (token : list ascii) : result (list combo) :=
  match Str.split_first "-"%char token with
  | None => Raise (ValueError "not enough values to unpack")
  | Some (lhs, rhs) =>
      match _TOKEN_match (Str.strip lhs), _TOKEN_match (Str.strip rhs) with
      | Some m1, Some m2 =>
          if g_plus m1 || g_plus m2 then
            Raise (invalid "Le suffixe '+' est incompatible avec un intervalle")
          else
            match g_lo m1, g_lo m2 with
            | Some lo1, Some lo2 =>
                if negb (Str.eqb (Str.upper (g_hi m1)) (Str.upper (g_hi m2))) then
                  Raise (invalid "Intervalle avec hi differents")
                else if negb (opt_eqb (opt_lower (g_so m1)) (opt_lower (g_so m2))) then
                  Raise (invalid "Intervalle avec s/o incompatibles")
                else
                  let* hi_i := _rank_idx (g_hi m1) in
                  let* l1 := _rank_idx lo1 in
                  let* l2 := _rank_idx lo2 in
                  let lo_start := Z.max l1 l2 in
                  let lo_stop := Z.min l1 l2 in
                  union_all
                    (List.map
                       (fun l =>
                          let* rc := Py.index _RANKS (Z.to_nat l) in
                          _expand_simple_token (g_hi m1) (Some rc) (g_so m1) false)
                       (py_range_down lo_start (lo_stop - 1)))
                    []
            | _, _ => Raise (invalid "Intervalle non pair sans 'lo' explicite")
            end
      | _, _ => Raise (invalid "Range invalide")
      end
  end.

Definition is_sep (c : ascii) : bool := Str.eqb c ","%char || Str.is_space c.

Fixpoint parse_parts (parts : list (list ascii)) (combos : list combo)
    : result (list combo) :=
  match parts with
  | [] => Ok combos
  | p :: rest =>
      if existsb (Str.eqb "-"%char) p then
        let* s := _expand_dash_range p in
        parse_parts rest (set_union combos s)
      else
        match _TOKEN_match p with
        | None => Raise (invalid "Token de range invalide")
        | Some m =>
            let* s := _expand_simple_token (g_hi m) (g_lo m) (g_so m) (g_plus m) in
            parse_parts rest (set_union combos s)
        end
  end.

Definition parse_range (text : string) : result (list combo) :=
  let chars := list_ascii_of_string text in
  match Str.strip chars with
  | [] => Raise (invalid "Range vide")
  | _ => parse_parts (Str.runs is_sep chars []) []
  end.

(** [filter_dead_combos], applied to the combos in the order the set yields
    them. *)
Definition filter_dead_combos (combos : list combo) (dead : list Z) : list combo :=
  let dead_set := dead in
  fold_left
    (fun out c =>
       let '(c1, c2) := c in
       if negb (Py.mem c1 dead_set) && negb (Py.mem c2 dead_set) && negb (c1 =? c2)
       then out ++ [(Z.min c1 c2, Z.max c1 c2)]
       else out)
    combos [].

End Ranges.

(* ================================================================= *)
(** ** cards.py: the deck *)

Module Cards.

Definition ensure_no_duplicates (cards : list Z) : result unit :=
  if (length (Py.distinct cards) =? length cards)%nat then Ok tt
  else Raise (CardParseError "Doublons detectes").

Fixpoint check_bounds (known : list Z) : result unit :=
  match known with
  | [] => Ok tt
  | c :: rest =>
      if (0 <=? c) && (c <=? 51) then check_bounds rest
      else Raise (CardParseError "Index carte hors bornes dans known")
  end.

Definition deck_without (known : list Z) : result (list Z) :=
  let known_list := known in
  let* _ := check_bounds known_list in
  let* _ := ensure_no_duplicates known_list in
  let remaining := filter (fun c => negb (Py.mem c known_list)) (py_range 0 52) in
  if negb (Z.of_nat (length remaining) =? 52 - Z.of_nat (length known_list)) then
    Raise (CardParseError "Incoherence de deck apres retrait des cartes connues")
  else Ok remaining.

End Cards.

(* ================================================================= *)
(** ** cards.py: cards as text

    Text is a list of ASCII characters; the Unicode suit symbols, which the
    source also accepts, are outside this model. *)

Module CardText.

Definition _RANKS : list ascii := Ranges._RANKS.

(** The keys of [_SUITS], in the order of their values. *)
Definition _SUITS : list ascii := ["S"; "H"; "D"; "C"]%char.

Definition text_eqb (a b : list ascii) : bool :=
  (length a =? length b)%nat && forallb (fun p => Str.eqb (fst p) (snd p)) (combine a b).

Definition invalid (msg : string) : exn := CardParseError msg.

Definition _norm_rank (rank : list ascii) : result ascii :=
  let r := List.map Str.upper rank in
  let r := if text_eqb r ["1"; "0"]%char then ["T"%char] else r in
  match r with
  | [c] => if existsb (Str.eqb c) _RANKS then Ok c else Raise (invalid "Rang invalide")
  | _ => Raise (invalid "Rang invalide")
  end.

Definition _norm_suit (suit : list ascii) : result ascii :=
  let s := List.map Str.upper suit in
  match s with
  | [c] => if existsb (Str.eqb c) _SUITS then Ok c else Raise (invalid "Couleur invalide")
  | _ => Raise (invalid "Couleur invalide")
  end.

Definition lookup (keys : list ascii) (k : ascii) : result Z :=
  match Str.index_of k keys with
  | Some i => Ok (Z.of_nat i)
  | None => Raise (invalid "KeyError")
  end.

Definition card_to_str (card : Z) : result (list ascii) :=
  if negb ((0 <=? card) && (card <=? 51)) then Raise (invalid "Index carte hors bornes")
  else
    let rank_i := card mod 13 in
    let suit_i := card / 13 in
    let* rank_c := Py.index _RANKS (Z.to_nat rank_i) in
    let* suit_c := Py.index ["s"; "h"; "d"; "c"]%char (Z.to_nat suit_i) in
    Ok [rank_c; suit_c].

(** The class [\w] on ASCII characters. *)
Definition is_word (c : ascii) : bool :=
  let n := Str.code c in
  ((48 <=? n) && (n <=? 57) || (65 <=? n) && (n <=? 90)
   || (97 <=? n) && (n <=? 122) || (n =? 95))%nat.

Definition is_suit_char (c : ascii) : bool := existsb (Str.eqb (Str.upper c)) _SUITS.

(** [(10|[2-9TJQKA])] at the head of [s]: the group and what follows it. *)
Definition rank_group (s : list ascii) : option (list ascii * list ascii) :=
  match s with
  | "1"%char :: "0"%char :: rest => Some (["1"; "0"]%char, rest)
  | c :: rest => if Ranges.is_rank_char c then Some ([c], rest) else None
  | [] => None
  end.

(** [(10|[2-9TJQKA])\s*([shdc])] at the head of [s]: the two groups and what
    follows the match. *)
Definition token_at (s : list ascii) : option (list ascii * ascii * list ascii) :=
  match rank_group s with
  | Some (rk, r) =>
      match Str.lstrip r with
      | c :: rest => if is_suit_char c then Some (rk, c, rest) else None
      | [] => None
      end
  | None => None
  end.

(** [_TOKEN.fullmatch]: the boundaries at both ends hold since a match
    starts and ends with a word character. *)
Definition _TOKEN_fullmatch (text : list ascii) : option (list ascii * ascii) :=
  match token_at text with
  | Some (rk, c, []) => Some (rk, c)
  | _ => None
  end.

Definition parse_card (text : list ascii) : result Z :=
  let text := Str.strip text in
  let* (r, s) :=
    match _TOKEN_fullmatch text with
    | None =>
        if ((length text =? 2) || (length text =? 3))%nat then
          let rank_raw := removelast text in
          let suit_raw := skipn (length text - 1) text in
          let* r := _norm_rank rank_raw in
          let* s := _norm_suit suit_raw in
          Ok (r, s)
        else Raise (invalid "Carte invalide")
    | Some (g1, g2) =>
        let* r := _norm_rank g1 in
        let* s := _norm_suit [g2] in
        Ok (r, s)
    end in
  let* rank_i := lookup _RANKS r in
  let* suit_i := lookup _SUITS s in
  Ok (suit_i * 13 + rank_i).

(** [_TOKEN.finditer]: [prev_word] tells whether the character before [s] is
    a word character, in which case no match can start here. *)
Fixpoint finditer (fuel : nat) (prev_word : bool) (s : list ascii)
    : list (list ascii * ascii) :=
  match fuel with
  | O => []
  | S fuel' =>
      match s with
      | [] => []
      | c :: s' =>
          let here :=
            if prev_word then None
            else match token_at s with
                 | Some (rk, su, rest) =>
                     match rest with
                     | [] => Some (rk, su, rest)
                     | x :: _ => if is_word x then None else Some (rk, su, rest)
                     end
                 | None => None
                 end in
          match here with
          | Some (rk, su, rest) => (rk, su) :: finditer fuel' true rest
          | None => finditer fuel' (is_word c) s'
          end
      end
  end.

Fixpoint canonical_tokens (ms : list (list ascii * ascii)) : result (list (list ascii)) :=
  match ms with
  | [] => Ok []
  | (g1, g2) :: rest =>
      let* r := _norm_rank g1 in
      let* s := _norm_suit [g2] in
      let* tokens := canonical_tokens rest in
      Ok ([r; Str.lower s] :: tokens)
  end.

(** The fallback loop of [_tokenize_cards] on a text without separators. *)
Fixpoint compact_tokens (fuel : nat) (blob : list ascii) : result (list (list ascii)) :=
  match fuel with
  | O => Ok []
  | S fuel' =>
      match blob with
      | [] => Ok []
      | c :: rest =>
          if text_eqb (List.map Str.lower (firstn 2 blob)) ["1"; "0"]%char then
            match skipn 2 blob with
            | [] => Raise (invalid "Chaine tronquee apres '10'")
            | suit_raw :: rest' =>
                let* r := _norm_rank ["1"; "0"]%char in
                let* s := _norm_suit [suit_raw] in
                let* tokens := compact_tokens fuel' rest' in
                Ok ([r; Str.lower s] :: tokens)
            end
          else
            match rest with
            | [] => Raise (invalid "Chaine invalide (rank sans suit)")
            | suit_raw :: rest' =>
                let* r := _norm_rank [c] in
                let* s := _norm_suit [suit_raw] in
                let* tokens := compact_tokens fuel' rest' in
                Ok ([r; Str.lower s] :: tokens)
            end
      end
  end.

Definition _tokenize_cards (blob : list ascii) : result (list (list ascii)) :=
  let blob := Str.strip blob in
  let* tokens := canonical_tokens (finditer (length blob) false blob) in
  match tokens, blob with
  | [], _ :: _ => compact_tokens (length blob) blob
  | _, _ => Ok tokens
  end.

Definition parse_combo (combo_text : list ascii) : result (Z * Z) :=
  let* toks := _tokenize_cards combo_text in
  match toks with
  | [t0; t1] =>
      let* c1 := parse_card t0 in
      let* c2 := parse_card t1 in
      if c1 =? c2 then Raise (invalid "Doublon de carte dans la main")
      else Ok (c1, c2)
  | _ => Raise (invalid "Une main doit contenir exactement 2 cartes")
  end.

Fixpoint parse_cards (toks : list (list ascii)) : result (list Z) :=
  match toks with
  | [] => Ok []
  | t :: rest =>
      let* c := parse_card t in
      let* cs := parse_cards rest in
      Ok (c :: cs)
  end.

Definition parse_board (board : option (list ascii)) : result (list Z) :=
  match board with
  | None | Some [] => Ok []
  | Some text =>
      let* toks := _tokenize_cards text in
      if negb ((length toks =? 3) || (length toks =? 4) || (length toks =? 5))%nat then
        Raise (invalid "Le board doit avoir 3, 4 ou 5 cartes")
      else
        let* cards := parse_cards toks in
        let* _ := Cards.ensure_no_duplicates cards in
        Ok cards
  end.

End CardText.

(* ================================================================= *)
(** ** Floating point, as Python evaluates it *)

Module Float.

Local Open Scope float_scope.

(** [float(z)]: the nearest double, ties to even; [OverflowError] when it
    does not fit. *)
Definition of_int (z : Z) : result float :=
  let f := SF2Prim (binary_normalize prec emax z 0 false) in
  if is_infinity f then Raise OverflowError else Ok f.

(** [x / y] *)
Definition div (x y : float) : result float :=
  if y =? 0 then Raise ZeroDivisionError else Ok (x / y).

(** [max(a, b)] and [min(a, b)]: the first argument unless the second is
    strictly beyond it. *)
Definition max (a b : float) : float := if a <? b then b else a.
Definition min (a b : float) : float := if b <? a then b else a.

(** [math.sqrt] *)
Definition sqrt (x : float) : result float :=
  if x <? 0 then Raise (ValueError "math domain error") else Ok (PrimFloat.sqrt x).

Definition z_95 : float := 0x1.f5c28f5c28f5cp+0.

End Float.

(* ================================================================= *)
(** ** The environment of a call *)

(** [random.Random(seed)], its methods [sample] and [choice], each returning
    the advanced generator.  A generator created without a seed takes its
    state from the operating system, here a value of [entropy]. *)
Class PyRandom : Type := {
  entropy : Type;
  rng : Type;
  seeded : Z -> rng;
  unseeded : entropy -> rng;
  rng_sample : rng -> list Z -> Z -> result (list Z * rng);
  rng_choice : rng -> list combo -> result (combo * rng)
}.

(** The order in which a Python set yields its elements: some arrangement of
    them. *)
Class PySetOrder : Type := {
  set_iter : list combo -> list combo;
  set_iter_perm : forall s, Permutation (set_iter s) s
}.

(* ================================================================= *)
(** ** equity.py *)

Record side : Type := {
  equity : float;
  stdev : float;
  ci95 : float * float;
  n : Z
}.

Record meta : Type := {
  seed_used : option Z;
  range_size : option Z;
  range_size_available : option Z
}.

Record report : Type := {
  hero : side;
  villain : side;
  info : meta
}.

Section Equity.

Context {random : PyRandom} {set_order : PySetOrder}.

Local Open Scope float_scope.

Definition Random (os : entropy) (seed : option Z) : rng :=
  match seed with
  | Some s => seeded s
  | None => unseeded os
  end.

(** [p = (wins + 0.5 * ties) / trials] *)
Definition estimate (wins ties trials : Z) : result float :=
  let* t := Float.of_int ties in
  let* w := Float.of_int wins in
  let* d := Float.of_int trials in
  Float.div (w + 0.5 * t) d.

(** The statistics of the Monte Carlo branches. *)
Definition mc_report (wins ties iters : Z) (m : meta) : result report :=
  let* p := estimate wins ties iters in
  let* d := Float.of_int iters in
  let* v := Float.div (p * (1 - p)) d in
  let* stdev := Float.sqrt (Float.max v 0) in
  let z := Float.z_95 in
  let ci_low := Float.max (p - z * stdev) 0 in
  let ci_high := Float.min (p + z * stdev) 1 in
  Ok {| hero := {| equity := p; stdev := stdev; ci95 := (ci_low, ci_high); n := iters |};
        villain := {| equity := 1 - p; stdev := stdev;
                      ci95 := (1 - ci_high, 1 - ci_low); n := iters |};
        info := m |}.

Definition tally (s_hero s_vil : score) (wins ties : Z) : Z * Z :=
  if score_gtb s_hero s_vil then ((wins + 1)%Z, ties)
  else if score_eqb s_hero s_vil then (wins, (ties + 1)%Z)
  else (wins, ties).

(** The sampling loop of [equity_hu], [k] iterations remaining. *)
Fixpoint hu_trials (h1 h2 v1 v2 : Z) (board_cards deck : list Z) (need : Z)
    (k : nat) (g : rng) (wins ties : Z) : result (Z * Z) :=
  match k with
  | O => Ok (wins, ties)
  | S k' =>
      let* (draw, g') := rng_sample g deck need in
      let full_board := (board_cards ++ draw)%list in
      let* s_hero := evaluate7 (h1 :: h2 :: full_board) in
      let* s_vil := evaluate7 (v1 :: v2 :: full_board) in
      let '(wins', ties') := tally s_hero s_vil wins ties in
      hu_trials h1 h2 v1 v2 board_cards deck need k' g' wins' ties'
  end.

(** [equity_hu], from the point where the hero, the villain and the board
    have been turned into cards by [parse_combo] and [parse_board]. *)
Definition equity_hu (os : entropy) (hero_cards villain_cards : Z * Z)
    (board_cards : list Z) (iters : Z) (seed : option Z) : result report :=
  let '(h1, h2) := hero_cards in
  let '(v1, v2) := villain_cards in
  let known := (h1 :: h2 :: v1 :: v2 :: board_cards)%list in
  let* deck := Cards.deck_without known in
  let m := {| seed_used := seed; range_size := None; range_size_available := None |} in
  if (length board_cards =? 5)%nat then
    let* s_hero := evaluate7 (h1 :: h2 :: board_cards) in
    let* s_vil := evaluate7 (v1 :: v2 :: board_cards) in
    let p := if score_gtb s_hero s_vil then 1
             else if score_ltb s_hero s_vil then 0
             else 0.5 in
    let stdev := 0 in
    let ci_low := p in
    let ci_high := p in
    Ok {| hero := {| equity := p; stdev := stdev; ci95 := (ci_low, ci_high); n := 1 |};
          villain := {| equity := 1 - p; stdev := stdev; ci95 := (1 - p, 1 - p); n := 1 |};
          info := m |}
  else
    let g := Random os seed in
    let need := (5 - Z.of_nat (length board_cards))%Z in
    let* (wins, ties) :=
      hu_trials h1 h2 v1 v2 board_cards deck need (Z.to_nat iters) g 0%Z 0%Z in
    mc_report wins ties iters m.

(** The enumeration of [equity_vs_range] on a complete board. *)
Fixpoint range_showdowns (h1 h2 : Z) (board_cards : list Z) (avail : list combo)
    (wins ties : Z) : result (Z * Z) :=
  match avail with
  | [] => Ok (wins, ties)
  | (v1, v2) :: rest =>
      let* s_h := evaluate7 (h1 :: h2 :: board_cards) in
      let* s_v := evaluate7 (v1 :: v2 :: board_cards) in
      let '(wins', ties') := tally s_h s_v wins ties in
      range_showdowns h1 h2 board_cards rest wins' ties'
  end.

(** The sampling loop of [equity_vs_range]. *)
Fixpoint range_trials (h1 h2 : Z) (board_cards deck0 : list Z) (avail : list combo)
    (need : Z) (k : nat) (g : rng) (wins ties : Z) : result (Z * Z) :=
  match k with
  | O => Ok (wins, ties)
  | S k' =>
      let* (v, g1) := rng_choice g avail in
      let '(v1, v2) := v in
      let deck := filter (fun c => negb (c =? v1)%Z && negb (c =? v2)%Z) deck0 in
      let* (draw, g2) := rng_sample g1 deck need in
      let full_board := (board_cards ++ draw)%list in
      let* s_h := evaluate7 (h1 :: h2 :: full_board) in
      let* s_v := evaluate7 (v1 :: v2 :: full_board) in
      let '(wins', ties') := tally s_h s_v wins ties in
      range_trials h1 h2 board_cards deck0 avail need k' g2 wins' ties'
  end.

Definition range_empty_msg : string :=
  "Range vide apres retrait des cartes mortes (heros/board).".

(** [equity_vs_range], from the point where the hero and the board have
    been turned into cards. *)
Definition equity_vs_range (os : entropy) (hero_cards : Z * Z) (villain_range : string)
    (board_cards : list Z) (iters : Z) (seed : option Z) : result report :=
  let '(h1, h2) := hero_cards in
  let* raw := Ranges.parse_range villain_range in
  let avail := Ranges.filter_dead_combos (set_iter raw) (h1 :: h2 :: board_cards) in
  match avail with
  | [] => Raise (ValueError range_empty_msg)
  | _ :: _ =>
      let* deck0 := Cards.deck_without (h1 :: h2 :: board_cards) in
      let need := (5 - Z.of_nat (length board_cards))%Z in
      let sizes seed :=
        {| seed_used := seed;
           range_size := Some (Z.of_nat (length raw));
           range_size_available := Some (Z.of_nat (length avail)) |} in
      if (need =? 0)%Z then
        let* (wins, ties) := range_showdowns h1 h2 board_cards avail 0%Z 0%Z in
        let* p := estimate wins ties (Z.of_nat (length avail)) in
        let stdev := 0 in
        Ok {| hero := {| equity := p; stdev := stdev; ci95 := (p, p);
                         n := Z.of_nat (length avail) |};
              villain := {| equity := 1 - p; stdev := stdev; ci95 := (1 - p, 1 - p);
                            n := Z.of_nat (length avail) |};
              info := sizes None |}
      else
        let g := Random os seed in
        let* (wins, ties) :=
          range_trials h1 h2 board_cards deck0 avail need (Z.to_nat iters) g 0%Z 0%Z in
        mc_report wins ties iters (sizes seed)
  end.

End Equity.

(* ================================================================= *)
(** ** A reference environment, used to run the model on concrete calls *)

Module Reference.

(** A linear congruential generator; [sample] draws without replacement by
    index, [choice] by index. *)
Definition step (g : Z) : Z := (g * 1103515245 + 12345) mod 2147483648.

Fixpoint draw_from (g : Z) (pool : list Z) (k : nat) : list Z * Z :=
  match k with
  | O => ([], g)
  | S k' =>
      let g' := step g in
      let j := Z.to_nat (g' mod Z.of_nat (length pool)) in
      let '(rest, g'') := draw_from g' (firstn j pool ++ skipn (S j) pool) k' in
      (nth j pool 0 :: rest, g'')
  end.

#[export] Instance lcg : PyRandom := {|
  entropy := Z;
  rng := Z;
  seeded := fun s => Z.abs s;
  unseeded := fun os => os;
  rng_sample := fun g pop k =>
    if (k <? 0) || (Z.of_nat (length pop) <? k)
    then Raise (ValueError "Sample larger than population or is negative")
    else Ok (draw_from g pop (Z.to_nat k));
  rng_choice := fun g pop =>
    match pop with
    | [] => Raise IndexError
    | c :: _ =>
        let g' := step g in
        Ok (nth (Z.to_nat (g' mod Z.of_nat (length pop))) pop c, g')
    end
|}.

#[export] Instance in_order : PySetOrder := {|
  set_iter := fun s => s;
  set_iter_perm := fun s => Permutation_refl s
|}.

End Reference.


(* ================================================================= *)
(** ** Vocabulary of the statements *)

Fixpoint descending (l : list Z) : Prop :=
  match l with
  | [] => True
  | x :: l' => match l' with [] => True | y :: _ => y <= x end /\ descending l'
  end.

(** All descending lists of length [k] over [0..hi]. *)
Fixpoint desc_lists (k : nat) (hi : Z) : list (list Z) :=
  match k with
  | O => [[]]
  | S k' => flat_map (fun x => List.map (cons x) (desc_lists k' x)) (py_range 0 (hi + 1))
  end.

Definition category_ok (r : result score) : bool :=
  match r with
  | Ok s => (0 <=? fst s) && (fst s <=? 8)
  | Raise _ => false
  end.

Inductive subseq {A : Type} : list A -> list A -> Prop :=
| subseq_nil : subseq [] []
| subseq_skip x s l : subseq s l -> subseq s (x :: l)
| subseq_keep x s l : subseq s l -> subseq (x :: s) (x :: l).

#[local] Hint Constructors subseq : core.

Definition is_max_score5 (cs : list Z) (m : score) : Prop :=
  (exists c, In c (Py.combinations cs 5) /\ _evaluate5 c = Ok m)
  /\ (forall c, In c (Py.combinations cs 5) ->
        exists s, _evaluate5 c = Ok s /\ score_le s m).

Definition six_high : list Z := [4; 3; 2; 1; 0].

Definition straight_score (is_flush : bool) (high : Z) : score :=
  (if is_flush then 8 else 4, [high]).

Definition bounded_by (m : score) (r : result score) : bool :=
  match r with
  | Ok s => negb (score_gtb s m)
  | Raise _ => false
  end.

Definition not_a_six : list Z := filter (fun r => negb (r =? 4)) (py_range 0 13).

(** Distinctness of a concrete list of cards. *)
Ltac distinct_cards :=
  repeat (constructor;
          [ simpl; intros H; repeat (destruct H as [H|H]; [discriminate H|]); exact H | ]);
  constructor.

Ltac cards_in_deck := repeat (constructor; [lia|]); constructor.

Definition card_in_deck (c : Z) : Prop := 0 <= c <= 51.

(** A five-card subset of [cards], listed in any order. *)
Definition five_card_subset (cards sub : list Z) : Prop :=
  NoDup sub /\ incl sub cards /\ length sub = 5%nat.

Definition test_straight_flush : list Z := [7; 8; 9; 10; 11; 13; 27].

(** No five of the cards share a suit. *)
Definition off_suit (cards : list Z) : Prop :=
  forall t, (count_occ Z.eq_dec (List.map _suit cards) t <= 4)%nat.

Definition off_suitb (cards : list Z) : bool :=
  let suits := List.map _suit cards in
  forallb (fun t => (count_occ Z.eq_dec suits t <=? 4)%nat) suits.

(** The hands of [test_wheel_straight_and_normal_straight]:
    As 5h 4d 3c 2s Kh Qd and 6s 5h 4d 3c 2s Kh Qd. *)
Definition test_wheel7 : list Z := [12; 16; 28; 40; 0; 24; 36].
Definition test_six_hi : list Z := [4; 16; 28; 40; 0; 24; 36].

(** [expand(text)] is a set of [k] combos. *)
Definition expands_to (text : string) (k : nat) : Prop :=
  exists s, Ranges.parse_range text = Ok s /\ NoDup s /\ length s = k.

(** A combo that shares a card with the dead cards. *)
Definition blocked (dead : list Z) (c : combo) : Prop :=
  In (fst c) dead \/ In (snd c) dead.

Definition keep_live (dead : list Z) (out : list combo) (c : combo) : list combo :=
  let '(c1, c2) := c in
  if negb (Py.mem c1 dead) && negb (Py.mem c2 dead) && negb (c1 =? c2)
  then out ++ [(Z.min c1 c2, Z.max c1 c2)]
  else out.

Definition assertion_7 : exn := AssertionError "evaluate7 attend exactement 7 cartes".

Definition hu_meta (seed : option Z) : meta :=
  {| seed_used := seed; range_size := None; range_size_available := None |}.

Definition range_meta (raw avail : list combo) (seed : option Z) : meta :=
  {| seed_used := seed;
     range_size := Some (Z.of_nat (length raw));
     range_size_available := Some (Z.of_nat (length avail)) |}.

(** The exact spec example: As Ah against Kd Kh on Ad Ks 2c 9d 9h. *)
Definition aces : Z * Z := (12, 25).
Definition kings : Z * Z := (37, 24).
Definition river : list Z := [38; 11; 39; 33; 20].

(** The length of the tiebreak tuple of each category. *)
Definition tiebreak_length (category : Z) : nat :=
  match category with
  | 8 | 4 => 1%nat
  | 7 | 6 => 2%nat
  | 3 | 2 => 3%nat
  | 1 => 4%nat
  | _ => 5%nat
  end.

Definition well_formed_score (s : score) : bool :=
  (0 <=? fst s) && (fst s <=? 8)
  && (length (snd s) =? tiebreak_length (fst s))%nat
  && forallb (fun r => (0 <=? r) && (r <=? 12)) (snd s).

(** The textbook ranking of five cards, from the ranks in descending order
    and the flush flag: the distinct ranks ordered by multiplicity, then by
    rank. *)
Definition multiplicity (rs : list Z) (r : Z) : Z := Z.of_nat (count_occ Z.eq_dec rs r).

Definition by_multiplicity (rs : list Z) : list Z :=
  List.map snd
    (Py.sorted_desc group_gtb (List.map (fun r => (multiplicity rs r, r)) (nodup Z.eq_dec rs))).

Definition pattern (rs : list Z) : list Z :=
  List.map (multiplicity rs) (by_multiplicity rs).

Definition textbook_straight (rs : list Z) : option Z :=
  match rs with
  | [a; b; c; d; e] =>
      if (a =? b + 1) && (b =? c + 1) && (c =? d + 1) && (d =? e + 1) then Some a
      else if (a =? 12) && (b =? 3) && (c =? 2) && (d =? 1) && (e =? 0) then Some 3
      else None
  | _ => None
  end.

Definition textbook_score (rs : list Z) (is_flush : bool) : score :=
  match textbook_straight rs, is_flush with
  | Some high, true => (8, [high])
  | straight, _ =>
      match pattern rs with
      | [4; 1] => (7, by_multiplicity rs)
      | [3; 2] => (6, by_multiplicity rs)
      | p =>
          if is_flush then (5, rs)
          else match straight with
               | Some high => (4, [high])
               | None =>
                   match p with
                   | [3; 1; 1] => (3, by_multiplicity rs)
                   | [2; 2; 1] => (2, by_multiplicity rs)
                   | [2; 1; 1; 1] => (1, by_multiplicity rs)
                   | _ => (0, rs)
                   end
               end
      end
  end.

Definition agrees (f : list Z -> bool -> score) (rs : list Z) (fl : bool) : bool :=
  match classify rs fl with
  | Ok s => score_eqb s (f rs fl) && well_formed_score s
  | Raise _ => false
  end.

Definition five_cards_example : list Z := [12; 25; 38; 11; 24].

Fixpoint strictly_descending (l : list Z) : Prop :=
  match l with
  | [] => True
  | x :: l' => match l' with [] => True | y :: _ => y < x end /\ strictly_descending l'
  end.

(** The strictly descending lists over [0 .. n-1]. *)
Fixpoint rank_sets (n : nat) : list (list Z) :=
  match n with
  | O => [[]]
  | S n' => rank_sets n' ++ List.map (cons (Z.of_nat n')) (rank_sets n')
  end.

(** The highest [h] such that [h, h-1, .., h-4] all occur. *)
Definition highest_run (ranks : list Z) : option Z :=
  find (fun h => forallb (fun d => Py.mem (h - d) ranks) [0; 1; 2; 3; 4])
       (py_range_down 12 3).

Definition expected_straight (ranks : list Z) : bool * Z :=
  match highest_run ranks with
  | Some h => (true, h)
  | None => if forallb (fun w => Py.mem w ranks) [12; 3; 2; 1; 0] then (true, 3) else (false, -1)
  end.

Definition straight_eqb (a b : bool * Z) : bool :=
  Bool.eqb (fst a) (fst b) && (snd a =? snd b).

(** A combo in canonical form: two distinct cards of the deck, the smaller
    first. *)
Definition canonical (c : combo) : Prop := 0 <= fst c /\ fst c < snd c /\ snd c <= 51.

Definition canonicalb (c : combo) : bool :=
  (0 <=? fst c) && (fst c <? snd c) && (snd c <=? 51).

Definition ranks_of (c : combo) : Z * Z := (_rank (fst c), _rank (snd c)).

(** The two cards of [c] have the ranks [hi] and [lo], in either order. *)
Definition has_ranks (hi lo : Z) (c : combo) : bool :=
  ((_rank (fst c) =? hi) && (_rank (snd c) =? lo))
  || ((_rank (fst c) =? lo) && (_rank (snd c) =? hi)).

Definition suited (c : combo) : bool := _suit (fst c) =? _suit (snd c).

Fixpoint distinctb (l : list combo) : bool :=
  match l with
  | [] => true
  | c :: l' => negb (existsb (Ranges.combo_eqb c) l') && distinctb l'
  end.

Definition nonpair_ok (hi lo : Z) : bool :=
  let s := Ranges._all_suited_combos hi lo in
  let o := Ranges._all_offsuit_combos hi lo in
  let b := Ranges._all_both_combos hi lo in
  (length s =? 4)%nat && (length o =? 12)%nat && (length b =? 16)%nat
  && distinctb b
  && forallb (fun c => canonicalb c && has_ranks hi lo c) b
  && forallb suited s && forallb (fun c => negb (suited c)) o
  && forallb (fun c => existsb (Ranges.combo_eqb c) b) (s ++ o)
  && forallb (fun c => existsb (Ranges.combo_eqb c) (s ++ o)) b.

Definition pair_ok (r : Z) : bool :=
  let p := Ranges._all_pair_combos r in
  (length p =? 6)%nat && distinctb p
  && forallb (fun c => canonicalb c && has_ranks r r c) p.

(** The 1326 canonical combos of the deck. *)
Definition all_combos : list combo :=
  flat_map (fun a => List.map (pair a) (py_range (a + 1) 52)) (py_range 0 52).

Definition live (dead : list Z) (c : combo) : bool :=
  negb (Py.mem (fst c) dead) && negb (Py.mem (snd c) dead) && negb (fst c =? snd c).

Definition normalise (c : combo) : combo := (Z.min (fst c) (snd c), Z.max (fst c) (snd c)).

(** The villain's side of a report mirrors the hero's. *)
Definition mirrored (r : report) : Prop :=
  equity (villain r) = (1 - equity (hero r))%float
  /\ stdev (villain r) = stdev (hero r)
  /\ n (villain r) = n (hero r)
  /\ ci95 (villain r)
     = ((1 - snd (ci95 (hero r)))%float, (1 - fst (ci95 (hero r)))%float).

(** The bounds of the hero's interval are not below 0 nor above 1. *)
Definition clamped (r : report) : Prop :=
  (fst (ci95 (hero r)) <? 0)%float = false
  /\ (1 <? snd (ci95 (hero r)))%float = false.

Ltac crack H :=
  repeat match type of H with
         | bind ?r _ = _ =>
             let E := fresh "E" in
             destruct r eqn:E; [cbv beta iota delta [bind] in H | discriminate H]
         | match ?r with Ok _ => _ | Raise _ => _ end = _ =>
             let E := fresh "E" in
             destruct r eqn:E; [cbv beta iota in H | discriminate H]
         | (let '(_, _) := ?p in _) = _ =>
             let E := fresh "E" in destruct p eqn:E; cbv beta iota in H
         end.

Definition small_count_ok (z : Z) : bool :=
  match Float.of_int z with
  | Ok f => (z =? 0) || negb (f =? 0)%float
  | Raise _ => false
  end.

Definition round_trip_ok (card : Z) : bool :=
  match CardText.card_to_str card with
  | Ok text =>
      match CardText.parse_card text with
      | Ok c => (c =? card) && (length text =? 2)%nat
      | Raise _ => false
      end
  | Raise _ => false
  end.

Definition separators : list (list ascii) :=
  [[]; [" "]; ["-"]; [","]; [" "; " "]; [","; " "]]%char.

Definition hand_reads_back (c1 c2 : Z) (sep : list ascii) : bool :=
  match CardText.card_to_str c1, CardText.card_to_str c2 with
  | Ok t1, Ok t2 =>
      match CardText.parse_combo (t1 ++ sep ++ t2) with
      | Ok (d1, d2) => (d1 =? c1) && (d2 =? c2)
      | Raise _ => false
      end
  | _, _ => false
  end.

Definition suit_letters : list ascii := ["s"; "h"; "d"; "c"]%char.

Definition card_chars_ok (card : Z) : bool :=
  match CardText.card_to_str card with
  | Ok [r; s] => existsb (Str.eqb r) CardText._RANKS && existsb (Str.eqb s) suit_letters
  | _ => false
  end.

Ltac each_rank H :=
  repeat (destruct H as [H|H]; [subst|]); [..|destruct H].

(** A hand or board text whose first two cards are written together and the
    others apart. *)
Definition glued_then_spaced (a b : list ascii) (others : list (list ascii)) : list ascii :=
  a ++ b ++ concat (map (fun t => " "%char :: t) others).

(** [equity_hu] as it is called: the hero, the villain and the board are
    texts, read by [parse_combo] and [parse_board] in this order. *)
Definition equity_hu_text `{PyRandom} (os : entropy) (hero villain : list ascii)
    (board : option (list ascii)) (iters : Z) (seed : option Z) : result report :=
  let* hero_cards := CardText.parse_combo hero in
  let* villain_cards := CardText.parse_combo villain in
  let* board_cards := CardText.parse_board board in
  equity_hu os hero_cards villain_cards board_cards iters seed.

(** [equity_vs_range] as it is called: the hero and the board are texts, read
    before the range is. *)
Definition equity_vs_range_text `{PyRandom} `{PySetOrder} (os : entropy)
    (hero : list ascii) (villain_range : string) (board : option (list ascii))
    (iters : Z) (seed : option Z) : result report :=
  let* hero_cards := CardText.parse_combo hero in
  let* board_cards := CardText.parse_board board in
  equity_vs_range os hero_cards villain_range board_cards iters seed.

(* ================================================================= *)
(** ** The order on scores *)

Lemma tuple_gtb_irrefl a : Py.tuple_gtb a a = false.
Proof.
  induction a as [|x a IH]; simpl; auto.
  rewrite Z.gtb_ltb, Z.ltb_irrefl. exact IH.
Qed.

Lemma tuple_gtb_trans a : forall b c,
  Py.tuple_gtb a b = true -> Py.tuple_gtb b c = true -> Py.tuple_gtb a c = true.
Proof.
  induction a as [|x a IH]; intros [|y b] [|z c]; simpl; try discriminate; auto.
  rewrite !Z.gtb_ltb.
  destruct (y <? x) eqn:E1, (x <? y) eqn:E2, (z <? y) eqn:E3, (y <? z) eqn:E4,
           (z <? x) eqn:E5, (x <? z) eqn:E6;
    try discriminate; auto; try apply IH;
    rewrite ?Z.ltb_lt, ?Z.ltb_ge in *; try lia.
Qed.

Lemma tuple_gtb_total a : forall b,
  Py.tuple_gtb a b = false -> Py.tuple_gtb b a = false -> a = b.
Proof.
  induction a as [|x a IH]; intros [|y b]; simpl; try discriminate; auto.
  rewrite !Z.gtb_ltb.
  destruct (y <? x) eqn:E1, (x <? y) eqn:E2; try discriminate;
    rewrite ?Z.ltb_lt, ?Z.ltb_ge in *; try lia.
  intros H1 H2. f_equal; [lia | auto].
Qed.

Lemma score_gtb_irrefl a : score_gtb a a = false.
Proof.
  unfold score_gtb. rewrite Z.gtb_ltb, Z.ltb_irrefl. apply tuple_gtb_irrefl.
Qed.

Lemma score_gtb_trans a b c :
  score_gtb a b = true -> score_gtb b c = true -> score_gtb a c = true.
Proof.
  unfold score_gtb. rewrite !Z.gtb_ltb.
  destruct (fst b <? fst a) eqn:E1, (fst a <? fst b) eqn:E2, (fst c <? fst b) eqn:E3,
           (fst b <? fst c) eqn:E4, (fst c <? fst a) eqn:E5, (fst a <? fst c) eqn:E6;
    try discriminate; auto; try apply tuple_gtb_trans;
    rewrite ?Z.ltb_lt, ?Z.ltb_ge in *; try lia.
Qed.

Lemma score_gtb_total a b :
  score_gtb a b = false -> score_gtb b a = false -> a = b.
Proof.
  destruct a as [ca ta], b as [cb tb]. unfold score_gtb; simpl.
  rewrite !Z.gtb_ltb.
  destruct (cb <? ca) eqn:E1, (ca <? cb) eqn:E2; try discriminate;
    rewrite ?Z.ltb_lt, ?Z.ltb_ge in *; try lia.
  intros H1 H2. f_equal; [lia | apply tuple_gtb_total; auto].
Qed.

Lemma score_gtb_asym a b : score_gtb a b = true -> score_gtb b a = false.
Proof.
  intros H. destruct (score_gtb b a) eqn:E; auto.
  pose proof (score_gtb_trans _ _ _ H E) as F. rewrite score_gtb_irrefl in F. discriminate.
Qed.

Lemma score_le_refl a : score_le a a.
Proof. apply score_gtb_irrefl. Qed.

Lemma score_le_trans a b c : score_le a b -> score_le b c -> score_le a c.
Proof.
  unfold score_le. intros H1 H2.
  destruct (score_gtb a c) eqn:E; auto.
  destruct (score_gtb b a) eqn:F.
  - pose proof (score_gtb_trans _ _ _ F E) as G. congruence.
  - pose proof (score_gtb_total _ _ H1 F). subst. congruence.
Qed.

Lemma score_le_antisym a b : score_le a b -> score_le b a -> a = b.
Proof. apply score_gtb_total. Qed.

Lemma score_le_lt_trans a b c : score_le a b -> score_lt b c -> score_lt a c.
Proof.
  unfold score_le, score_lt. intros H1 H2.
  destruct (score_gtb b a) eqn:F.
  - eapply score_gtb_trans; eauto.
  - pose proof (score_gtb_total _ _ H1 F). subst. auto.
Qed.

Lemma score_lt_le_trans a b c : score_lt a b -> score_le b c -> score_lt a c.
Proof.
  unfold score_le, score_lt. intros H1 H2.
  destruct (score_gtb c b) eqn:F.
  - eapply score_gtb_trans; eauto.
  - pose proof (score_gtb_total _ _ H2 F). subst. auto.
Qed.

Lemma tuple_eqb_eq a : forall b, Py.tuple_eqb a b = true <-> a = b.
Proof.
  induction a as [|x a IH]; intros [|y b]; simpl; split; try discriminate; auto.
  - rewrite andb_true_iff, Z.eqb_eq, IH. intros [-> ->]; auto.
  - intros E; inversion E; subst. rewrite Z.eqb_refl. apply IH; auto.
Qed.

Lemma score_eqb_eq a b : score_eqb a b = true <-> a = b.
Proof.
  destruct a as [ca ta], b as [cb tb]. unfold score_eqb; simpl.
  rewrite andb_true_iff, Z.eqb_eq, tuple_eqb_eq. split.
  - intros [-> ->]; auto.
  - intros E; inversion E; auto.
Qed.

(* ================================================================= *)
(** ** Sorting ranks *)

Lemma insert_desc_descending x l :
  descending l -> descending (Py.insert_desc Z.gtb x l).
Proof.
  induction l as [|y l IH]; simpl; intros H; auto.
  rewrite Z.gtb_ltb. destruct (x <? y) eqn:E.
  - apply Z.ltb_lt in E. destruct H as [H1 H2]. specialize (IH H2).
    simpl. split; auto.
    destruct l as [|z l]; simpl in *; [lia|].
    rewrite Z.gtb_ltb in *. destruct (x <? z); lia.
  - apply Z.ltb_ge in E. simpl. split; auto.
Qed.

Lemma sorted_desc_descending l : descending (Py.sorted_desc Z.gtb l).
Proof.
  induction l; simpl; auto using insert_desc_descending.
Qed.

Lemma insert_desc_perm x l : Permutation (x :: l) (Py.insert_desc Z.gtb x l).
Proof.
  induction l as [|y l IH]; simpl; auto.
  destruct (y >? x); auto.
  rewrite perm_swap. constructor. exact IH.
Qed.

Lemma sorted_desc_perm l : Permutation l (Py.sorted_desc Z.gtb l).
Proof.
  induction l; simpl; auto.
  rewrite <- insert_desc_perm. constructor. exact IHl.
Qed.

Lemma insert_desc_comm x y l :
  Py.insert_desc Z.gtb x (Py.insert_desc Z.gtb y l)
  = Py.insert_desc Z.gtb y (Py.insert_desc Z.gtb x l).
Proof.
  induction l as [|z l IH]; simpl.
  - rewrite !Z.gtb_ltb.
    destruct (x <? y) eqn:E1, (y <? x) eqn:E2; auto;
      rewrite ?Z.ltb_lt, ?Z.ltb_ge in *; try lia.
    assert (x = y) by lia. subst; auto.
  - rewrite !Z.gtb_ltb.
    destruct (y <? z) eqn:E1, (x <? z) eqn:E2; simpl; rewrite !Z.gtb_ltb, ?E1, ?E2; auto.
    + rewrite IH; auto.
    + destruct (y <? x) eqn:E3; rewrite ?Z.ltb_lt, ?Z.ltb_ge in *; try lia. auto.
    + destruct (x <? y) eqn:E3; rewrite ?Z.ltb_lt, ?Z.ltb_ge in *; try lia. auto.
    + destruct (x <? y) eqn:E3, (y <? x) eqn:E4; simpl;
        rewrite ?Z.gtb_ltb, ?E1, ?E2; auto;
        rewrite ?Z.ltb_lt, ?Z.ltb_ge in *; try lia.
      assert (x = y) by lia. subst; auto.
Qed.

Lemma sorted_desc_invariant l l' :
  Permutation l l' -> Py.sorted_desc Z.gtb l = Py.sorted_desc Z.gtb l'.
Proof.
  induction 1; simpl; auto.
  - congruence.
  - apply insert_desc_comm.
  - congruence.
Qed.

Lemma descending_bound x l : descending (x :: l) -> Forall (fun y => y <= x) l.
Proof.
  revert x. induction l as [|y l IH]; intros x H; constructor.
  - simpl in H. lia.
  - destruct H as [H1 H2]. specialize (IH y H2).
    eapply Forall_impl; [|exact IH]. simpl. intros; lia.
Qed.

Lemma in_py_range a b x : In x (py_range a b) <-> a <= x < b.
Proof.
  unfold py_range. rewrite in_map_iff. split.
  - intros [i [<- Hi]]. apply in_seq in Hi. lia.
  - intros H. exists (Z.to_nat (x - a)). split; [lia|].
    apply in_seq. lia.
Qed.

Lemma desc_lists_complete l : forall hi,
  descending l -> Forall (fun x => 0 <= x <= hi) l -> In l (desc_lists (length l) hi).
Proof.
  induction l as [|x l IH]; intros hi D F; simpl; auto.
  inversion F as [|? ? Hx Hl]; subst.
  apply in_flat_map. exists x. split.
  - apply in_py_range. lia.
  - apply in_map. apply IH.
    + destruct D; auto.
    + pose proof (descending_bound _ _ D) as B.
      rewrite Forall_forall in *. intros y Hy.
      specialize (B y Hy). specialize (Hl y Hy). simpl in *. lia.
Qed.

Lemma rank_bounds c : 0 <= _rank c <= 12.
Proof. unfold _rank. pose proof (Z.mod_pos_bound c 13). lia. Qed.

Lemma sorted_ranks_enumerated cs :
  In (Py.sorted_desc Z.gtb (List.map _rank cs)) (desc_lists (length cs) 12).
Proof.
  pose proof (sorted_desc_perm (List.map _rank cs)) as P.
  replace (length cs) with (length (Py.sorted_desc Z.gtb (List.map _rank cs))).
  2:{ rewrite <- (Permutation_length P). apply length_map. }
  apply desc_lists_complete.
  - apply sorted_desc_descending.
  - eapply Permutation_Forall; [exact P|].
    apply Forall_forall. intros x Hx. apply in_map_iff in Hx.
    destruct Hx as [c [<- _]]. apply rank_bounds.
Qed.

(* ================================================================= *)
(** ** [_evaluate5] on five cards *)

Lemma classify_five_ranks :
  forallb (fun rs => category_ok (classify rs true) && category_ok (classify rs false))
    (desc_lists 5 12) = true.
Proof. vm_compute. reflexivity. Qed.

Lemma _evaluate5_total cs :
  length cs = 5%nat -> exists s, _evaluate5 cs = Ok s /\ 0 <= fst s <= 8.
Proof.
  intros L. unfold _evaluate5.
  pose proof (sorted_ranks_enumerated cs) as E. rewrite L in E.
  pose proof classify_five_ranks as C. rewrite forallb_forall in C.
  specialize (C _ E). apply andb_true_iff in C. destruct C as [C1 C2].
  destruct (is_flush_of (List.map _suit cs)).
  - destruct (classify _ true) as [s|]; [|discriminate]. exists s. split; auto.
    simpl in C1. lia.
  - destruct (classify _ false) as [s|]; [|discriminate]. exists s. split; auto.
    simpl in C2. lia.
Qed.

Lemma distinct_length_invariant l l' :
  Permutation l l' -> length (Py.distinct l) = length (Py.distinct l').
Proof.
  intros P. apply Permutation_length. apply NoDup_Permutation.
  - apply NoDup_nodup.
  - apply NoDup_nodup.
  - intros x. unfold Py.distinct. rewrite !nodup_In. split; intros H.
    + eapply Permutation_in; eauto.
    + eapply Permutation_in; [symmetry|]; eauto.
Qed.

Lemma _evaluate5_invariant cs cs' :
  Permutation cs cs' -> _evaluate5 cs = _evaluate5 cs'.
Proof.
  intros P. unfold _evaluate5, is_flush_of.
  rewrite (sorted_desc_invariant (List.map _rank cs) (List.map _rank cs')).
  2: apply Permutation_map; auto.
  rewrite (distinct_length_invariant (List.map _suit cs) (List.map _suit cs')).
  2: apply Permutation_map; auto.
  reflexivity.
Qed.

(* ================================================================= *)
(** ** Combinations are the sub-sequences of a given length *)

Lemma subseq_nil_l {A} (l : list A) : subseq [] l.
Proof. induction l; auto. Qed.

Lemma in_combinations {A} (l : list A) : forall k c,
  In c (Py.combinations l k) <-> subseq c l /\ length c = k.
Proof.
  induction l as [|x l IH]; intros [|k] c; simpl.
  - split.
    + intros [<-|[]]. auto.
    + intros [H _]. inversion H; auto.
  - split; [intros []|]. intros [H L]. inversion H; subst. discriminate.
  - split.
    + intros [<-|[]]. split; auto. apply subseq_nil_l.
    + intros [_ L]. destruct c; [auto|discriminate].
  - rewrite in_app_iff, in_map_iff. split.
    + intros [[c0 [<- H]]|H].
      * apply IH in H. destruct H. split; simpl; auto.
      * apply IH in H. destruct H. split; auto.
    + intros [H L]. inversion H; subst.
      * right. apply IH. auto.
      * left. eexists; split; eauto. apply IH. simpl in L. split; auto.
Qed.

Lemma subseq_permutation {A} (l l' : list A) :
  Permutation l l' ->
  forall c, subseq c l -> exists c', subseq c' l' /\ Permutation c c'.
Proof.
  induction 1 as [|x l l' P IH|x y l|l l' l'' P1 IH1 P2 IH2]; intros c S.
  - exists c. auto.
  - inversion S; subst.
    + destruct (IH _ H1) as [c' [S' P']]. exists c'. auto.
    + destruct (IH _ H1) as [c' [S' P']]. exists (x :: c'). auto.
  - inversion S as [|? ? ? S1|? ? ? S1]; subst;
      inversion S1 as [|? ? ? S2|? ? ? S2]; subst.
    + exists c. auto.
    + exists (x :: s). auto.
    + exists (y :: s). auto.
    + exists (x :: y :: s0). split; auto. apply perm_swap.
  - destruct (IH1 _ S) as [c1 [S1 Q1]]. destruct (IH2 _ S1) as [c2 [S2 Q2]].
    exists c2. split; auto. eapply Permutation_trans; eauto.
Qed.

Lemma subseq_filter {A} (f : A -> bool) (l : list A) : subseq (filter f l) l.
Proof.
  induction l as [|x l IH]; simpl; auto. destruct (f x); auto.
Qed.

Lemma subseq_incl {A} (s l : list A) : subseq s l -> incl s l.
Proof.
  induction 1; intros a Ha; simpl in *; auto.
  destruct Ha; auto.
Qed.

(** With distinct cards a five-card subset, in any order, is a rearrangement
    of one of the combinations. *)
Lemma subset_is_combination (cs sub : list Z) :
  NoDup cs -> NoDup sub -> incl sub cs ->
  exists c, In c (Py.combinations cs (length sub)) /\ Permutation c sub.
Proof.
  intros N1 N2 I.
  set (c := filter (fun x => Py.mem x sub) cs).
  assert (P : Permutation c sub).
  { apply NoDup_Permutation; auto.
    - apply NoDup_filter; auto.
    - intros x. unfold c. rewrite filter_In. unfold Py.mem. rewrite existsb_exists.
      split.
      + intros [_ [y [Hy E]]]. apply Z.eqb_eq in E. subst; auto.
      + intros H. split; auto. exists x. split; auto. apply Z.eqb_refl. }
  exists c. split; auto. apply in_combinations. split.
  - apply subseq_filter.
  - apply Permutation_length; auto.
Qed.

Lemma combinations_7_5 {A} (l : list A) :
  length l = 7%nat -> length (Py.combinations l 5) = 21%nat.
Proof.
  intros L.
  do 8 (destruct l as [|? l]; try discriminate). reflexivity.
Qed.

(* ================================================================= *)
(** ** The running maximum of [evaluate7] *)

Lemma best_of_max combs : forall best,
  (forall c, In c combs -> exists s, _evaluate5 c = Ok s) ->
  exists m, best_of combs best = Ok m
    /\ (m = best \/ exists c, In c combs /\ _evaluate5 c = Ok m)
    /\ score_le best m
    /\ (forall c s, In c combs -> _evaluate5 c = Ok s -> score_le s m).
Proof.
  induction combs as [|c combs IH]; intros best T; simpl.
  - exists best. repeat split; auto using score_le_refl. intros ? ? [].
  - destruct (T c (or_introl eq_refl)) as [s Hs]. rewrite Hs. simpl.
    destruct (IH (if score_gtb s best then s else best)) as [m [E [W [B U]]]].
    { intros c' Hc'. apply T. right; auto. }
    exists m. split; auto.
    assert (Bs : score_le s m /\ score_le best m).
    { destruct (score_gtb s best) eqn:G.
      - split; auto. eapply score_le_trans; [|exact B].
        apply score_gtb_asym; auto.
      - split; auto. eapply score_le_trans; [exact G|exact B]. }
    destruct Bs as [Bs Bb].
    split; [|split; auto].
    + destruct W as [->|[c' [Hc' Ec']]].
      * destruct (score_gtb s best); auto. right. exists c. auto.
      * right. exists c'. auto.
    + intros c' s' [<-|Hc'] Es'.
      * rewrite Hs in Es'. inversion Es'; subst; auto.
      * eapply U; eauto.
Qed.

Lemma evaluate7_max cs :
  length cs = 7%nat -> exists m, evaluate7 cs = Ok m /\ is_max_score5 cs m.
Proof.
  intros L. unfold evaluate7. rewrite L. simpl.
  assert (T : forall c, In c (Py.combinations cs 5) -> exists s, _evaluate5 c = Ok s /\ 0 <= fst s <= 8).
  { intros c Hc. apply in_combinations in Hc. apply _evaluate5_total. tauto. }
  destruct (best_of_max (Py.combinations cs 5) (-1, [])) as [m [E [W [B U]]]].
  { intros c Hc. destruct (T c Hc) as [s [Hs _]]. eauto. }
  exists m. split; auto. split.
  - destruct W as [->|W]; auto.
    exfalso.
    assert (N : Py.combinations cs 5 <> []).
    { intros Z0. pose proof (combinations_7_5 cs L) as C. rewrite Z0 in C. discriminate. }
    destruct (Py.combinations cs 5) as [|c r] eqn:Ec; [congruence|].
    destruct (T c (or_introl eq_refl)) as [s [Hs Hc]].
    specialize (U c s (or_introl eq_refl) Hs).
    unfold score_le, score_gtb in U. simpl in U.
    destruct (fst s >? -1) eqn:G; [discriminate|].
    rewrite Z.gtb_ltb, Z.ltb_ge in G. lia.
  - intros c Hc. destruct (T c Hc) as [s [Hs _]]. exists s. split; auto. eapply U; eauto.
Qed.

Lemma evaluate7_wrong_count cs :
  length cs <> 7%nat ->
  evaluate7 cs = Raise (AssertionError "evaluate7 attend exactement 7 cartes").
Proof.
  intros L. unfold evaluate7.
  destruct (Nat.eqb_spec (length cs) 7); [contradiction|reflexivity].
Qed.

Lemma is_max_score5_invariant cs cs' m m' :
  Permutation cs cs' -> is_max_score5 cs m -> is_max_score5 cs' m' -> m = m'.
Proof.
  intros P [[c [Hc Ec]] U] [[c' [Hc' Ec']] U'].
  apply score_le_antisym.
  - apply in_combinations in Hc. destruct Hc as [S L].
    destruct (subseq_permutation _ _ P _ S) as [d [Sd Pd]].
    destruct (U' d) as [s [Es Hs]].
    { apply in_combinations. split; auto. rewrite <- (Permutation_length Pd); auto. }
    rewrite <- (_evaluate5_invariant _ _ Pd), Ec in Es. inversion Es; subst; auto.
  - apply in_combinations in Hc'. destruct Hc' as [S L].
    destruct (subseq_permutation _ _ (Permutation_sym P) _ S) as [d [Sd Pd]].
    destruct (U d) as [s [Es Hs]].
    { apply in_combinations. split; auto. rewrite <- (Permutation_length Pd); auto. }
    rewrite <- (_evaluate5_invariant _ _ Pd), Ec' in Es. inversion Es; subst; auto.
Qed.

Lemma evaluate7_invariant cs cs' :
  Permutation cs cs' -> evaluate7 cs = evaluate7 cs'.
Proof.
  intros P. pose proof (Permutation_length P) as L.
  destruct (Nat.eq_dec (length cs) 7) as [E|E].
  - destruct (evaluate7_max cs E) as [m [Hm Mm]].
    destruct (evaluate7_max cs') as [m' [Hm' Mm']]; [congruence|].
    rewrite Hm, Hm'. f_equal. eapply is_max_score5_invariant; eauto.
  - rewrite !evaluate7_wrong_count; auto. congruence.
Qed.

Lemma subseq_NoDup {A} (s l : list A) : subseq s l -> NoDup l -> NoDup s.
Proof.
  induction 1; intros N; auto.
  - inversion N; auto.
  - inversion N; subst. constructor; auto.
    intros I. apply (subseq_incl _ _ H) in I. contradiction.
Qed.

Lemma subseq_map {A B} (f : A -> B) (s l : list A) :
  subseq s l -> subseq (List.map f s) (List.map f l).
Proof. induction 1; simpl; auto. Qed.

Lemma subseq_app_l {A} (s t : list A) : subseq s (s ++ t).
Proof.
  induction s; simpl; auto. apply subseq_nil_l.
Qed.

Lemma subseq_count (s l : list Z) t :
  subseq s l -> (count_occ Z.eq_dec s t <= count_occ Z.eq_dec l t)%nat.
Proof.
  induction 1; simpl; auto.
  - destruct (Z.eq_dec x t); lia.
  - destruct (Z.eq_dec x t); lia.
Qed.

(* ================================================================= *)
(** ** Flushes *)

Lemma is_flush_of_one_suit ss :
  is_flush_of ss = true -> exists t, Forall (eq t) ss.
Proof.
  unfold is_flush_of, Py.distinct. intros H. apply Nat.eqb_eq in H.
  destruct (nodup Z.eq_dec ss) as [|t [|u r]] eqn:E; try discriminate.
  exists t. apply Forall_forall. intros x Hx.
  apply (nodup_In Z.eq_dec) in Hx. rewrite E in Hx. destruct Hx as [->|[]]. reflexivity.
Qed.

Lemma count_occ_all (ss : list Z) t :
  Forall (eq t) ss -> count_occ Z.eq_dec ss t = length ss.
Proof.
  induction 1 as [|x l Hx Hl IH]; simpl; auto.
  destruct (Z.eq_dec x t); congruence.
Qed.

(** No five cards of one suit: no five-card selection is a flush. *)
Lemma no_flush_in (cs c : list Z) :
  (forall t, (count_occ Z.eq_dec (List.map _suit cs) t <= 4)%nat) ->
  subseq c cs -> length c = 5%nat -> is_flush_of (List.map _suit c) = false.
Proof.
  intros H S L. destruct (is_flush_of (List.map _suit c)) eqn:E; auto.
  exfalso. destruct (is_flush_of_one_suit _ E) as [t F].
  pose proof (count_occ_all _ _ F) as C. rewrite length_map, L in C.
  pose proof (subseq_count _ _ t (subseq_map _suit _ _ S)) as B.
  specialize (H t). lia.
Qed.

(* ================================================================= *)
(** ** The wheel *)

Lemma wheel_score w :
  Permutation (List.map _rank w) wheel ->
  _evaluate5 w = Ok (straight_score (is_flush_of (List.map _suit w)) 3).
Proof.
  intros P. unfold _evaluate5. rewrite (sorted_desc_invariant _ _ P).
  destruct (is_flush_of (List.map _suit w)); vm_compute; reflexivity.
Qed.

Lemma six_high_score s :
  Permutation (List.map _rank s) six_high ->
  _evaluate5 s = Ok (straight_score (is_flush_of (List.map _suit s)) 4).
Proof.
  intros P. unfold _evaluate5. rewrite (sorted_desc_invariant _ _ P).
  destruct (is_flush_of (List.map _suit s)); vm_compute; reflexivity.
Qed.

(** Whatever two ranks other than a six join the wheel, no unsuited
    five-card selection beats the five-high straight. *)
Lemma wheel_plus_two_ranks :
  forallb (fun rx =>
    forallb (fun ry =>
      forallb (fun c => bounded_by (4, [3]) (classify (Py.sorted_desc Z.gtb c) false))
        (Py.combinations (wheel ++ [rx; ry]) 5))
      not_a_six)
    not_a_six = true.
Proof. vm_compute. reflexivity. Qed.

Lemma in_not_a_six c : _rank c <> 4 -> In (_rank c) not_a_six.
Proof.
  intros H. unfold not_a_six. apply filter_In. split.
  - apply in_py_range. pose proof (rank_bounds c). lia.
  - apply negb_true_iff. apply Z.eqb_neq. auto.
Qed.

Lemma wheel_hand_score w x y :
  Permutation (List.map _rank w) wheel ->
  _rank x <> 4 -> _rank y <> 4 ->
  (forall t, (count_occ Z.eq_dec (List.map _suit (w ++ [x; y])) t <= 4)%nat) ->
  evaluate7 (w ++ [x; y]) = Ok (4, [3]).
Proof.
  intros P Hx Hy NF.
  assert (Lw : length w = 5%nat).
  { rewrite <- (length_map _rank), (Permutation_length P). reflexivity. }
  assert (L : length (w ++ [x; y]) = 7%nat) by (rewrite length_app, Lw; reflexivity).
  destruct (evaluate7_max _ L) as [m [E [[c [Hc Ec]] U]]].
  rewrite E. f_equal. apply score_le_antisym.
  - (* every selection is bounded by the five-high straight *)
    apply in_combinations in Hc. destruct Hc as [S Lc].
    pose proof (no_flush_in _ _ NF S Lc) as F.
    unfold _evaluate5 in Ec. rewrite F in Ec.
    assert (Q : Permutation (List.map _rank (w ++ [x; y])) (wheel ++ [_rank x; _rank y])).
    { rewrite map_app. apply (Permutation_app_tail (List.map _rank [x; y]) P). }
    destruct (subseq_permutation _ _ Q _ (subseq_map _rank _ _ S)) as [c0 [S0 P0]].
    rewrite (sorted_desc_invariant _ _ P0) in Ec.
    pose proof wheel_plus_two_ranks as K.
    rewrite forallb_forall in K. specialize (K _ (in_not_a_six _ Hx)).
    rewrite forallb_forall in K. specialize (K _ (in_not_a_six _ Hy)).
    rewrite forallb_forall in K.
    assert (I0 : In c0 (Py.combinations (wheel ++ [_rank x; _rank y]) 5)).
    { apply in_combinations. split; auto.
      rewrite <- (Permutation_length P0), length_map. exact Lc. }
    specialize (K c0 I0). rewrite Ec in K.
    apply negb_true_iff in K. exact K.
  - (* and the wheel itself is one of them *)
    destruct (U w) as [s [Es Hs]].
    { apply in_combinations. split; auto. apply subseq_app_l. }
    rewrite (wheel_score _ P) in Es.
    rewrite (no_flush_in _ _ NF (subseq_app_l w [x; y]) Lw) in Es.
    inversion Es; subst. exact Hs.
Qed.

Lemma six_high_hand_score s p q :
  Permutation (List.map _rank s) six_high ->
  exists b, evaluate7 (s ++ [p; q]) = Ok b /\ score_le (4, [4]) b.
Proof.
  intros P.
  assert (Ls : length s = 5%nat).
  { rewrite <- (length_map _rank), (Permutation_length P). reflexivity. }
  assert (L : length (s ++ [p; q]) = 7%nat) by (rewrite length_app, Ls; reflexivity).
  destruct (evaluate7_max _ L) as [m [E [_ U]]].
  exists m. split; auto.
  destruct (U s) as [b [Eb Hb]].
  { apply in_combinations. split; auto. apply subseq_app_l. }
  rewrite (six_high_score _ P) in Eb. inversion Eb; subst.
  eapply score_le_trans; [|exact Hb].
  destruct (is_flush_of (List.map _suit s)); reflexivity.
Qed.

(* ================================================================= *)
(** ** Claims about the evaluator *)

(** C1. For seven distinct cards of the deck, [evaluate7] tries the 21
    combinations of five cards, and what it returns is the score of a
    five-card subset that no five-card subset exceeds in the order on
    (category, tiebreak) pairs. *)
Theorem evaluate7_best_five_card_score (cards7 : list Z) :
  length cards7 = 7%nat -> NoDup cards7 -> Forall card_in_deck cards7 ->
  length (Py.combinations cards7 5) = 21%nat
  /\ (forall sub, In sub (Py.combinations cards7 5) -> five_card_subset cards7 sub)
  /\ exists best,
       evaluate7 cards7 = Ok best
       /\ (exists sub, five_card_subset cards7 sub /\ _evaluate5 sub = Ok best)
       /\ (forall sub, five_card_subset cards7 sub ->
             exists s, _evaluate5 sub = Ok s /\ score_le s best).
Proof.
  intros L N _.
  assert (Sub : forall sub, In sub (Py.combinations cards7 5) -> five_card_subset cards7 sub).
  { intros sub H. apply in_combinations in H. destruct H as [S L5].
    repeat split; auto.
    - eapply subseq_NoDup; eauto.
    - apply subseq_incl; auto. }
  split; [apply combinations_7_5; auto|]. split; [exact Sub|].
  destruct (evaluate7_max cards7 L) as [best [E [[c [Hc Ec]] U]]].
  exists best. split; auto. split.
  - exists c. split; auto.
  - intros sub [Ns [I L5]].
    destruct (subset_is_combination cards7 sub N Ns I) as [c' [Hc' P]].
    rewrite L5 in Hc'. destruct (U c' Hc') as [s [Es Hs]].
    exists s. split; auto. rewrite <- (_evaluate5_invariant _ _ P). exact Es.
Qed.

Lemma evaluate7_best_five_card_score_witness :
  length test_straight_flush = 7%nat
  /\ NoDup test_straight_flush
  /\ Forall card_in_deck test_straight_flush
  /\ exists best,
       evaluate7 test_straight_flush = Ok best
       /\ (exists sub, five_card_subset test_straight_flush sub /\ _evaluate5 sub = Ok best)
       /\ (forall sub, five_card_subset test_straight_flush sub ->
             exists s, _evaluate5 sub = Ok s /\ score_le s best).
Proof.
  assert (L : length test_straight_flush = 7%nat) by reflexivity.
  assert (N : NoDup test_straight_flush) by (unfold test_straight_flush; distinct_cards).
  assert (F : Forall card_in_deck test_straight_flush)
    by (unfold test_straight_flush, card_in_deck; cards_in_deck).
  repeat (split; [assumption|]).
  exact (proj2 (proj2 (evaluate7_best_five_card_score test_straight_flush L N F))).
Defined.

(** C10. Rearranging the seven cards does not change what [evaluate7]
    returns. *)
Theorem evaluate7_order_independent (cards7 cards7' : list Z) :
  length cards7 = 7%nat -> Permutation cards7 cards7' ->
  exists s, evaluate7 cards7 = Ok s /\ evaluate7 cards7' = Ok s.
Proof.
  intros L P. destruct (evaluate7_max cards7 L) as [s [E _]].
  exists s. split; auto. rewrite <- (evaluate7_invariant _ _ P). exact E.
Qed.

Lemma evaluate7_order_independent_witness :
  length test_straight_flush = 7%nat
  /\ Permutation test_straight_flush (rev test_straight_flush)
  /\ exists s, evaluate7 test_straight_flush = Ok s
               /\ evaluate7 (rev test_straight_flush) = Ok s.
Proof.
  split; [reflexivity|]. split; [apply Permutation_rev|].
  exact (evaluate7_order_independent test_straight_flush (rev test_straight_flush)
           eq_refl (Permutation_rev _)).
Defined.

Lemma off_suitb_spec cards : off_suitb cards = true -> off_suit cards.
Proof.
  unfold off_suitb, off_suit. intros H t. rewrite forallb_forall in H.
  destruct (in_dec Z.eq_dec t (List.map _suit cards)) as [I|I].
  - apply Nat.leb_le. apply H. exact I.
  - apply (count_occ_not_In Z.eq_dec) in I. rewrite I. lia.
Qed.

(** C2, as worded, fails when the wheel itself is suited: As 5s 4s 3s 2s with
    the two off-suit low cards 7h 8d is a straight flush, five high, which
    beats the six-high straight 6s 5h 4d 3c 2s Kh Qd. *)
Lemma suited_wheel_beats_six_high_straight :
  Permutation (List.map _rank [12; 3; 2; 1; 0]) wheel
  /\ _suit 18 <> _suit 32 /\ _suit 18 <> _suit 12 /\ _suit 32 <> _suit 12
  /\ evaluate7 [12; 3; 2; 1; 0; 18; 32] = Ok (8, [3])
  /\ evaluate7 test_six_hi = Ok (4, [4])
  /\ ~ score_lt (8, [3]) (4, [4]).
Proof.
  split; [apply Permutation_refl|].
  repeat split; try (vm_compute; discriminate); try (vm_compute; reflexivity).
Qed.

(** C2, amended.  A five-card hand with the ranks A,5,4,3,2 is a straight (or
    a straight flush) with high rank 3.  Hence seven cards made of those five
    and two cards other than a six, no five of the seven sharing a suit, score
    exactly the five-high straight, strictly below any seven cards containing
    6,5,4,3,2. *)
Theorem wheel_ranked_five_high :
  (forall w, Permutation (List.map _rank w) wheel ->
     _evaluate5 w = Ok (straight_score (is_flush_of (List.map _suit w)) 3))
  /\ (forall w x y wheel7 s p q six7,
        Permutation (List.map _rank w) wheel ->
        Permutation wheel7 (w ++ [x; y]) ->
        _rank x <> 4 -> _rank y <> 4 -> off_suit wheel7 ->
        Permutation (List.map _rank s) six_high ->
        Permutation six7 (s ++ [p; q]) ->
        exists b, evaluate7 wheel7 = Ok (4, [3])
                  /\ evaluate7 six7 = Ok b /\ score_lt (4, [3]) b).
Proof.
  split; [exact wheel_score|].
  intros w x y wheel7 s p q six7 Pw P7 Hx Hy NF Ps P6.
  destruct (six_high_hand_score s p q Ps) as [b [Eb Hb]].
  exists b. repeat split.
  - rewrite (evaluate7_invariant _ _ P7). apply wheel_hand_score; auto.
    intros t. specialize (NF t).
    pose proof (Permutation_map _suit P7) as Q.
    rewrite <- (proj1 (Permutation_count_occ Z.eq_dec _ _) Q t). exact NF.
  - rewrite (evaluate7_invariant _ _ P6). exact Eb.
  - eapply score_lt_le_trans; [|exact Hb]. reflexivity.
Qed.

Lemma wheel_ranked_five_high_witness :
  exists b, evaluate7 test_wheel7 = Ok (4, [3])
            /\ evaluate7 test_six_hi = Ok b /\ score_lt (4, [3]) b.
Proof.
  refine (proj2 wheel_ranked_five_high
            [12; 16; 28; 40; 0] 24 36 test_wheel7 [4; 16; 28; 40; 0] 24 36 test_six_hi
            _ _ _ _ _ _ _).
  - apply Permutation_refl.
  - apply Permutation_refl.
  - discriminate.
  - discriminate.
  - apply off_suitb_spec. reflexivity.
  - apply Permutation_refl.
  - apply Permutation_refl.
Defined.

(* ================================================================= *)
(** ** Sets of combos *)

Lemma combo_eqb_eq a b : Ranges.combo_eqb a b = true <-> a = b.
Proof.
  destruct a, b. unfold Ranges.combo_eqb; simpl.
  rewrite andb_true_iff, !Z.eqb_eq. split.
  - intros [-> ->]; auto.
  - intros E; inversion E; auto.
Qed.

Lemma set_add_NoDup s c : NoDup s -> NoDup (Ranges.set_add s c).
Proof.
  intros N. unfold Ranges.set_add.
  destruct (existsb (Ranges.combo_eqb c) s) eqn:E; auto.
  apply NoDup_app; auto.
  - repeat constructor. intros [].
  - intros x Hx [Hc|[]]. subst x.
    assert (existsb (Ranges.combo_eqb c) s = true); [|congruence].
    apply existsb_exists. exists c. split; auto. apply combo_eqb_eq; auto.
Qed.

Lemma set_union_NoDup t : forall s, NoDup s -> NoDup (Ranges.set_union s t).
Proof.
  unfold Ranges.set_union.
  induction t as [|c t IH]; simpl; intros s N; auto.
  apply IH. apply set_add_NoDup; auto.
Qed.

Lemma parse_parts_NoDup parts : forall acc s,
  NoDup acc -> Ranges.parse_parts parts acc = Ok s -> NoDup s.
Proof.
  induction parts as [|p parts IH]; simpl; intros acc s N E.
  - inversion E; subst; auto.
  - destruct (existsb (Str.eqb "-") p).
    + destruct (Ranges._expand_dash_range p) as [u|]; [|discriminate]. simpl in E.
      eapply IH; [|exact E]. apply set_union_NoDup; auto.
    + destruct (Ranges._TOKEN_match p) as [m|]; [|discriminate].
      destruct (Ranges._expand_simple_token _ _ _ _) as [u|]; [|discriminate].
      simpl in E. eapply IH; [|exact E]. apply set_union_NoDup; auto.
Qed.

Lemma parse_range_NoDup text s : Ranges.parse_range text = Ok s -> NoDup s.
Proof.
  unfold Ranges.parse_range.
  destruct (Str.strip _); [discriminate|].
  apply parse_parts_NoDup. constructor.
Qed.

Lemma expands_to_intro text k s :
  Ranges.parse_range text = Ok s -> length s = k -> expands_to text k.
Proof.
  intros E L. exists s. repeat split; auto. eapply parse_range_NoDup; eauto.
Qed.

(* ================================================================= *)
(** ** Claims about the range expander *)

(** C9. The combo counts of the plain, pair-plus and dash tokens. *)
Theorem range_grammar_counts :
  expands_to "TT" 6 /\ expands_to "TT+" 30 /\ expands_to "AKs" 4
  /\ expands_to "AKo" 12 /\ expands_to "AK" 16 /\ expands_to "A5s-A2s" 16.
Proof.
  repeat split; (eapply expands_to_intro; [vm_compute; reflexivity | reflexivity]).
Qed.

(** C3, as the code runs it.  The [+] loop of [_expand_simple_token] keeps the
    lower rank and sweeps the higher one from its written value up to the
    ace.  With an ace as higher rank the sweep has a single step: "AQ+" is
    "AQ" (16 combos, no AK among them) and "AQs+" is "AQs" (4 combos), where
    the comment in the code and [test_basic_counts] expect 32 and 8. *)
Theorem plus_suffix_sweeps_high_rank :
  expands_to "AQ+" 16
  /\ Ranges.parse_range "AQ+" = Ranges.parse_range "AQ"
  /\ (exists s, Ranges.parse_range "AQ+" = Ok s
        /\ forallb (fun c => negb (existsb (Ranges.combo_eqb c) s))
             (Ranges._all_both_combos 12 11) = true)
  /\ expands_to "AQs+" 4
  /\ Ranges.parse_range "AQs+" = Ranges.parse_range "AQs"
  /\ Ranges.parse_range "KQ+" = Ranges.parse_range "KQ,AQ".
Proof.
  split; [eapply expands_to_intro; [vm_compute; reflexivity | reflexivity]|].
  split; [vm_compute; reflexivity|].
  split; [eexists; split; vm_compute; reflexivity|].
  split; [eapply expands_to_intro; [vm_compute; reflexivity | reflexivity]|].
  split; vm_compute; reflexivity.
Qed.

(* ================================================================= *)
(** ** The deck *)

Lemma mem_In x l : Py.mem x l = true <-> In x l.
Proof.
  unfold Py.mem. rewrite existsb_exists. split.
  - intros [y [Hy E]]. apply Z.eqb_eq in E. subst; auto.
  - intros H. exists x. split; auto. apply Z.eqb_refl.
Qed.

Lemma check_bounds_ok known :
  Forall card_in_deck known -> Cards.check_bounds known = Ok tt.
Proof.
  induction 1 as [|c l Hc Hl IH]; simpl; auto.
  unfold card_in_deck in Hc.
  destruct (Z.leb_spec 0 c); [|lia]. destruct (Z.leb_spec c 51); [|lia]. exact IH.
Qed.

Lemma filter_split_length {A} (f : A -> bool) (l : list A) :
  (length (filter f l) + length (filter (fun x => negb (f x)) l) = length l)%nat.
Proof.
  induction l as [|x l IH]; simpl; auto.
  destruct (f x); simpl; lia.
Qed.

Lemma py_range_NoDup a b : NoDup (py_range a b).
Proof.
  unfold py_range. apply Injective_map_NoDup.
  - intros i j E. lia.
  - apply seq_NoDup.
Qed.

Lemma py_range_length a b : length (py_range a b) = Z.to_nat (b - a).
Proof. unfold py_range. rewrite length_map, length_seq. reflexivity. Qed.

(** Distinct cards of the deck pass the validation of [deck_without]. *)
Lemma deck_without_ok known :
  NoDup known -> Forall card_in_deck known ->
  Cards.deck_without known
  = Ok (filter (fun c => negb (Py.mem c known)) (py_range 0 52)).
Proof.
  intros N F. unfold Cards.deck_without.
  rewrite (check_bounds_ok _ F).
  unfold Cards.ensure_no_duplicates, Py.distinct.
  rewrite (nodup_fixed_point Z.eq_dec N), Nat.eqb_refl.
  cbv beta iota delta [bind].
  set (outside := filter (fun c => negb (Py.mem c known)) (py_range 0 52)).
  set (inside := filter (fun c => Py.mem c known) (py_range 0 52)).
  assert (P : Permutation inside known).
  { apply NoDup_Permutation; auto.
    - apply NoDup_filter. apply py_range_NoDup.
    - intros x. unfold inside. rewrite filter_In, mem_In, in_py_range. split.
      + tauto.
      + intros H. split; auto. rewrite Forall_forall in F.
        pose proof (F x H) as B. unfold card_in_deck in B. lia. }
  pose proof (filter_split_length (fun c => Py.mem c known) (py_range 0 52)) as S.
  cbv beta in S. fold inside in S. fold outside in S.
  rewrite (Permutation_length P), py_range_length in S.
  change (Z.to_nat (52 - 0)) with 52%nat in S.
  assert (E : (Z.of_nat (length outside) =? 52 - Z.of_nat (length known)) = true).
  { apply Z.eqb_eq. lia. }
  rewrite E. reflexivity.
Qed.

(* ================================================================= *)
(** ** Dead cards *)

Lemma filter_dead_combos_fold combos dead :
  Ranges.filter_dead_combos combos dead = fold_left (keep_live dead) combos [].
Proof. reflexivity. Qed.

Lemma keep_live_blocked dead combos : forall out,
  (forall c, In c combos -> blocked dead c) ->
  fold_left (keep_live dead) combos out = out.
Proof.
  induction combos as [|[c1 c2] combos IH]; intros out B; [reflexivity|].
  cbn [fold_left].
  assert (E : keep_live dead out (c1, c2) = out).
  { unfold keep_live.
    destruct (B (c1, c2) (or_introl eq_refl)) as [H|H]; simpl in H;
      apply mem_In in H; rewrite H; simpl; auto.
    rewrite andb_false_r. reflexivity. }
  rewrite E. apply IH. intros c Hc. apply B. right; exact Hc.
Qed.

Lemma filter_dead_all_blocked combos dead :
  (forall c, In c combos -> blocked dead c) ->
  Ranges.filter_dead_combos combos dead = [].
Proof.
  intros B. rewrite filter_dead_combos_fold. apply keep_live_blocked. exact B.
Qed.

(* ================================================================= *)
(** ** Claims about the estimator *)

(** C4. With five board cards [equity_hu] scores the two hands once and
    reports 1.0, 0.0 or 0.5 for a hero win, loss or tie, one sample and a
    zero standard error, the villain getting one minus the hero's equity.
    Neither the generator, nor the seed, nor the trial count plays a part. *)
Theorem complete_board_showdown_is_exact `{PyRandom}
    (os : entropy) (h1 h2 v1 v2 : Z) (board : list Z) (iters : Z) (seed : option Z) :
  length board = 5%nat ->
  NoDup (h1 :: h2 :: v1 :: v2 :: board) ->
  Forall card_in_deck (h1 :: h2 :: v1 :: v2 :: board) ->
  exists s_hero s_vil r,
    evaluate7 (h1 :: h2 :: board) = Ok s_hero
    /\ evaluate7 (v1 :: v2 :: board) = Ok s_vil
    /\ equity_hu os (h1, h2) (v1, v2) board iters seed = Ok r
    /\ ((score_lt s_vil s_hero /\ equity (hero r) = 1%float /\ equity (villain r) = 0%float)
        \/ (score_lt s_hero s_vil /\ equity (hero r) = 0%float /\ equity (villain r) = 1%float)
        \/ (s_hero = s_vil /\ equity (hero r) = 0.5%float /\ equity (villain r) = 0.5%float))
    /\ equity (villain r) = (1 - equity (hero r))%float
    /\ n (hero r) = 1 /\ n (villain r) = 1
    /\ stdev (hero r) = 0%float /\ stdev (villain r) = 0%float
    /\ (forall (other : PyRandom) (os' : @entropy other) iters' seed',
          exists r', @equity_hu other os' (h1, h2) (v1, v2) board iters' seed' = Ok r'
                     /\ hero r' = hero r /\ villain r' = villain r).
Proof.
  intros L N F.
  destruct (evaluate7_max (h1 :: h2 :: board)) as [s_hero [Eh _]]; [simpl; lia|].
  destruct (evaluate7_max (v1 :: v2 :: board)) as [s_vil [Ev _]]; [simpl; lia|].
  assert (run : forall (g : PyRandom) (o : @entropy g) it sd,
            @equity_hu g o (h1, h2) (v1, v2) board it sd
            = Ok {| hero := {| equity := if score_gtb s_hero s_vil then 1
                                         else if score_ltb s_hero s_vil then 0 else 0.5;
                               stdev := 0;
                               ci95 := (if score_gtb s_hero s_vil then 1
                                        else if score_ltb s_hero s_vil then 0 else 0.5,
                                        if score_gtb s_hero s_vil then 1
                                        else if score_ltb s_hero s_vil then 0 else 0.5)%float;
                               n := 1 |};
                    villain := {| equity := 1 - (if score_gtb s_hero s_vil then 1
                                                 else if score_ltb s_hero s_vil then 0 else 0.5);
                                  stdev := 0;
                                  ci95 := (1 - (if score_gtb s_hero s_vil then 1
                                                else if score_ltb s_hero s_vil then 0 else 0.5),
                                           1 - (if score_gtb s_hero s_vil then 1
                                                else if score_ltb s_hero s_vil then 0 else 0.5))%float;
                                  n := 1 |};
                    info := hu_meta sd |}).
  { intros g o it sd. unfold equity_hu.
    rewrite (deck_without_ok _ N F). cbv beta iota delta [bind].
    rewrite L, Nat.eqb_refl, Eh, Ev. reflexivity. }
  exists s_hero, s_vil. eexists. split; [exact Eh|]. split; [exact Ev|].
  split; [apply run|]. cbn [hero villain equity stdev n].
  split.
  { unfold score_lt, score_ltb.
    destruct (score_gtb s_hero s_vil) eqn:G1.
    - left. repeat split; reflexivity.
    - destruct (score_gtb s_vil s_hero) eqn:G2.
      + right; left. repeat split; reflexivity.
      + right; right. split; [apply score_gtb_total; assumption|].
        split; reflexivity. }
  repeat (split; [reflexivity|]).
  intros other os' iters' seed'. eexists. split; [apply run|]. split; reflexivity.
Qed.

Lemma complete_board_showdown_is_exact_witness :
  length river = 5%nat
  /\ exists r,
       @equity_hu Reference.lcg 0 aces kings river 200000 None = Ok r
       /\ equity (hero r) = 1%float /\ equity (villain r) = 0%float
       /\ n (hero r) = 1 /\ stdev (hero r) = 0%float.
Proof.
  split; [reflexivity|].
  destruct (@complete_board_showdown_is_exact Reference.lcg
              0 12 25 37 24 river 200000 None)
    as [s_hero [s_vil [r [Eh [Ev [Er [_ [_ [Hn [_ [Hs _]]]]]]]]]]].
  - reflexivity.
  - unfold river; distinct_cards.
  - unfold river, card_in_deck; cards_in_deck.
  - exists r. split; [exact Er|].
    assert (Q : Ok r = @equity_hu Reference.lcg 0 aces kings river 200000 None)
      by (symmetry; exact Er).
    vm_compute in Q. inversion Q; subst. repeat split; reflexivity.
Defined.

(** C7. When every combo of the expanded range shares a card with the hero's
    hand or the board, [equity_vs_range] raises [ValueError] and returns no
    report. *)
Theorem blocked_range_is_rejected `{PyRandom} `{PySetOrder}
    (os : entropy) (h1 h2 : Z) (villain_range : string) (board : list Z)
    (iters : Z) (seed : option Z) (raw : list combo) :
  Ranges.parse_range villain_range = Ok raw ->
  (forall c, In c raw -> blocked (h1 :: h2 :: board) c) ->
  equity_vs_range os (h1, h2) villain_range board iters seed
  = Raise (ValueError range_empty_msg).
Proof.
  intros E B. unfold equity_vs_range. rewrite E. cbv beta iota delta [bind].
  rewrite filter_dead_all_blocked; [reflexivity|].
  intros c Hc. apply B. eapply Permutation_in; [apply set_iter_perm|exact Hc].
Qed.

(** A range wholly blocked by the hero and the flop: As Ah against "AA" on
    Ad Ac 2s. *)
Lemma blocked_range_is_rejected_witness :
  (exists raw, Ranges.parse_range "AA" = Ok raw
               /\ forall c, In c raw -> blocked [12; 25; 38; 51; 0] c)
  /\ @equity_vs_range Reference.lcg Reference.in_order 0 (12, 25) "AA" [38; 51; 0]
       1000 (Some 1)
     = Raise (ValueError range_empty_msg).
Proof.
  assert (B : forall c, In c [(12, 25); (12, 38); (12, 51); (25, 38); (25, 51); (38, 51)] ->
                blocked [12; 25; 38; 51; 0] c).
  { intros c Hc. unfold blocked.
    repeat (destruct Hc as [Hc|Hc]; [subst c; simpl; tauto|]). destruct Hc. }
  split.
  - eexists. split; [vm_compute; reflexivity|exact B].
  - apply (@blocked_range_is_rejected Reference.lcg Reference.in_order 0 12 25 "AA"
             [38; 51; 0] 1000 (Some 1)
             [(12, 25); (12, 38); (12, 51); (25, 38); (25, 51); (38, 51)]).
    + vm_compute; reflexivity.
    + exact B.
Defined.

(* ----------------------------------------------------------------- *)
(** *** Trial counts *)

Lemma hu_trials_none `{PyRandom} h1 h2 v1 v2 board deck need iters g :
  iters <= 0 ->
  hu_trials h1 h2 v1 v2 board deck need (Z.to_nat iters) g 0 0 = Ok (0, 0).
Proof.
  intros Hi. replace (Z.to_nat iters) with 0%nat by lia. reflexivity.
Qed.

Lemma range_trials_none `{PyRandom} h1 h2 board deck0 avail need iters g :
  iters <= 0 ->
  range_trials h1 h2 board deck0 avail need (Z.to_nat iters) g 0 0 = Ok (0, 0).
Proof.
  intros Hi. replace (Z.to_nat iters) with 0%nat by lia. reflexivity.
Qed.

(** C8, as stated, fails: a negative trial count is not rejected.  As Ah
    against Kd Kh before the flop with -5 trials returns a report. *)
Lemma negative_trial_count_is_accepted :
  exists r, @equity_hu Reference.lcg 0 aces kings [] (-5) (Some 3) = Ok r
            /\ n (hero r) = -5 /\ equity (villain r) = 1%float.
Proof.
  eexists. split; [vm_compute; reflexivity|]. split; reflexivity.
Qed.

(** C8, amended.  [evaluate7] rejects any card count other than seven before
    scoring anything.  The estimators do not check the trial count: on an
    incomplete board a count of zero or less runs no trial, and the report is
    the statistics of no win and no tie over that count, which for a count of
    zero is the division by zero of the final average. *)
Theorem card_count_checked_trial_count_unchecked `{PyRandom} `{PySetOrder} :
  (forall cards, length cards <> 7%nat -> evaluate7 cards = Raise assertion_7)
  /\ (forall os h1 h2 v1 v2 board iters seed,
        length board <> 5%nat ->
        NoDup (h1 :: h2 :: v1 :: v2 :: board) ->
        Forall card_in_deck (h1 :: h2 :: v1 :: v2 :: board) ->
        iters <= 0 ->
        equity_hu os (h1, h2) (v1, v2) board iters seed
        = mc_report 0 0 iters (hu_meta seed))
  /\ (forall os h1 h2 text board iters seed raw,
        length board <> 5%nat ->
        NoDup (h1 :: h2 :: board) ->
        Forall card_in_deck (h1 :: h2 :: board) ->
        Ranges.parse_range text = Ok raw ->
        Ranges.filter_dead_combos (set_iter raw) (h1 :: h2 :: board) <> [] ->
        iters <= 0 ->
        equity_vs_range os (h1, h2) text board iters seed
        = mc_report 0 0 iters
            (range_meta raw (Ranges.filter_dead_combos (set_iter raw) (h1 :: h2 :: board))
               seed))
  /\ (forall m, mc_report 0 0 0 m = Raise ZeroDivisionError).
Proof.
  split; [exact evaluate7_wrong_count|]. split; [|split].
  - intros os h1 h2 v1 v2 board iters seed L N F Hi. unfold equity_hu.
    rewrite (deck_without_ok _ N F). cbv beta iota delta [bind].
    destruct (Nat.eqb_spec (length board) 5); [contradiction|].
    rewrite hu_trials_none by exact Hi. reflexivity.
  - intros os h1 h2 text board iters seed raw L N F E A Hi. unfold equity_vs_range.
    rewrite E. cbv beta iota delta [bind].
    destruct (Ranges.filter_dead_combos (set_iter raw) (h1 :: h2 :: board))
      as [|a avail] eqn:Ea; [contradiction|].
    rewrite (deck_without_ok _ N F). cbv beta iota delta [bind].
    destruct (Z.eqb_spec (5 - Z.of_nat (length board)) 0) as [Z0|Z0]; [lia|].
    rewrite range_trials_none by exact Hi. reflexivity.
  - intros m. reflexivity.
Qed.

Lemma card_count_checked_trial_count_unchecked_witness :
  evaluate7 [1; 2] = Raise assertion_7
  /\ @equity_hu Reference.lcg 0 aces kings [] 0 (Some 3) = Raise ZeroDivisionError
  /\ @equity_vs_range Reference.lcg Reference.in_order 0 aces "KK+" [38; 0; 1] (-3) (Some 1)
     = mc_report 0 0 (-3) (range_meta
         [(11, 24); (11, 37); (11, 50); (24, 37); (24, 50); (37, 50);
          (12, 25); (12, 38); (12, 51); (25, 38); (25, 51); (38, 51)]
         [(11, 24); (11, 37); (11, 50); (24, 37); (24, 50); (37, 50)]
         (Some 1)).
Proof.
  pose proof (@card_count_checked_trial_count_unchecked Reference.lcg Reference.in_order)
    as [A [B [C D]]].
  unfold aces, kings.
  split; [apply A; discriminate|]. split.
  - rewrite (B 0 12 25 37 24 [] 0 (Some 3)).
    + apply D.
    + discriminate.
    + distinct_cards.
    + unfold card_in_deck; cards_in_deck.
    + lia.
  - apply (C 0 12 25 "KK+"%string [38; 0; 1] (-3) (Some 1)
             [(11, 24); (11, 37); (11, 50); (24, 37); (24, 50); (37, 50);
              (12, 25); (12, 38); (12, 51); (25, 38); (25, 51); (38, 51)]).
    + discriminate.
    + distinct_cards.
    + unfold card_in_deck; cards_in_deck.
    + vm_compute; reflexivity.
    + vm_compute; discriminate.
    + lia.
Defined.

Lemma classify_matches_textbook :
  forallb (fun rs => agrees textbook_score rs true && agrees textbook_score rs false)
    (desc_lists 5 12) = true.
Proof. vm_compute. reflexivity. Qed.

Lemma _evaluate5_textbook cards :
  length cards = 5%nat ->
  _evaluate5 cards
  = Ok (textbook_score (Py.sorted_desc Z.gtb (List.map _rank cards))
          (is_flush_of (List.map _suit cards)))
  /\ well_formed_score
       (textbook_score (Py.sorted_desc Z.gtb (List.map _rank cards))
          (is_flush_of (List.map _suit cards))) = true.
Proof.
  intros L. unfold _evaluate5.
  pose proof (sorted_ranks_enumerated cards) as E. rewrite L in E.
  pose proof classify_matches_textbook as C. rewrite forallb_forall in C.
  specialize (C _ E). apply andb_true_iff in C. destruct C as [C1 C2].
  unfold agrees in C1, C2.
  destruct (is_flush_of (List.map _suit cards)).
  - destruct (classify _ true) as [s|]; [|discriminate].
    apply andb_true_iff in C1. destruct C1 as [Q W].
    apply score_eqb_eq in Q. subst s. split; [reflexivity|exact W].
  - destruct (classify _ false) as [s|]; [|discriminate].
    apply andb_true_iff in C2. destruct C2 as [Q W].
    apply score_eqb_eq in Q. subst s. split; [reflexivity|exact W].
Qed.

(** X1. On five cards [_evaluate5] always returns a score: a category
    between 0 and 8, a tiebreak tuple of the length fixed for that category,
    made of ranks between 0 and 12. *)
Theorem evaluate5_score_shape (cards5 : list Z) :
  length cards5 = 5%nat ->
  exists s, _evaluate5 cards5 = Ok s
            /\ 0 <= fst s <= 8
            /\ length (snd s) = tiebreak_length (fst s)
            /\ Forall (fun r => 0 <= r <= 12) (snd s).
Proof.
  intros L. destruct (_evaluate5_textbook cards5 L) as [E W].
  eexists. split; [exact E|].
  unfold well_formed_score in W.
  repeat (apply andb_true_iff in W; destruct W as [W ?]).
  repeat split; try lia.
  - apply Nat.eqb_eq. assumption.
  - apply Forall_forall. intros r Hr.
    match goal with H : forallb _ _ = true |- _ => rewrite forallb_forall in H; specialize (H r Hr) end.
    lia.
Qed.

Lemma evaluate5_score_shape_witness :
  length five_cards_example = 5%nat
  /\ exists s, _evaluate5 five_cards_example = Ok s
               /\ 0 <= fst s <= 8
               /\ length (snd s) = tiebreak_length (fst s)
               /\ Forall (fun r => 0 <= r <= 12) (snd s).
Proof.
  split; [reflexivity|]. apply (evaluate5_score_shape five_cards_example). reflexivity.
Defined.

(** X2. The score of five cards is the textbook one: a straight flush, else
    four of a kind, a full house, a flush, a straight, three of a kind, two
    pairs, one pair or a high card, read off the multiplicities of the ranks,
    the tiebreak being the distinct ranks ordered by multiplicity and then by
    rank (the high card alone for straights, all five ranks for a flush or a
    high card). *)
Theorem evaluate5_is_textbook_score (cards5 : list Z) :
  length cards5 = 5%nat ->
  _evaluate5 cards5
  = Ok (textbook_score (Py.sorted_desc Z.gtb (List.map _rank cards5))
          (is_flush_of (List.map _suit cards5))).
Proof.
  intros L. exact (proj1 (_evaluate5_textbook cards5 L)).
Qed.

Lemma evaluate5_is_textbook_score_witness :
  length five_cards_example = 5%nat
  /\ _evaluate5 five_cards_example = Ok (6, [12; 11]).
Proof.
  split; [reflexivity|].
  rewrite (evaluate5_is_textbook_score five_cards_example eq_refl).
  vm_compute. reflexivity.
Defined.

(** X3. The score of five cards does not depend on the order in which they
    are given. *)
Theorem evaluate5_order_independent (cards5 cards5' : list Z) :
  length cards5 = 5%nat -> Permutation cards5 cards5' ->
  exists s, _evaluate5 cards5 = Ok s /\ _evaluate5 cards5' = Ok s.
Proof.
  intros L P. destruct (_evaluate5_total cards5 L) as [s [E _]].
  exists s. split; [exact E|]. rewrite <- (_evaluate5_invariant _ _ P). exact E.
Qed.

Lemma evaluate5_order_independent_witness :
  length five_cards_example = 5%nat
  /\ Permutation five_cards_example (rev five_cards_example)
  /\ exists s, _evaluate5 five_cards_example = Ok s
               /\ _evaluate5 (rev five_cards_example) = Ok s.
Proof.
  split; [reflexivity|]. split; [apply Permutation_rev|].
  exact (evaluate5_order_independent five_cards_example (rev five_cards_example)
           eq_refl (Permutation_rev _)).
Defined.

(* ----------------------------------------------------------------- *)
(** *** Straights among any number of distinct ranks *)

Lemma strictly_descending_bound x l :
  strictly_descending (x :: l) -> Forall (fun y => y < x) l.
Proof.
  revert x. induction l as [|y l IH]; intros x H; constructor.
  - simpl in H. lia.
  - destruct H as [H1 H2]. specialize (IH y H2).
    eapply Forall_impl; [|exact IH]. simpl. intros; lia.
Qed.

Lemma rank_sets_mono n m l : (n <= m)%nat -> In l (rank_sets n) -> In l (rank_sets m).
Proof.
  induction 1; auto. intros H0. simpl. apply in_or_app. left. auto.
Qed.

Lemma rank_sets_complete l : forall n,
  strictly_descending l -> Forall (fun x => 0 <= x < Z.of_nat n) l -> In l (rank_sets n).
Proof.
  induction l as [|x l IH]; intros n D F.
  - clear. induction n; simpl; auto. apply in_or_app. left; auto.
  - inversion F as [|? ? Hx Hl]; subst.
    apply (rank_sets_mono (S (Z.to_nat x)) n); [lia|].
    simpl. apply in_or_app. right.
    rewrite Z2Nat.id by lia. apply in_map. apply IH.
    + destruct D; auto.
    + pose proof (strictly_descending_bound _ _ D) as B.
      rewrite Forall_forall in *. intros y Hy.
      specialize (B y Hy). specialize (Hl y Hy). simpl in *. lia.
Qed.

Lemma _is_straight_all_rank_sets :
  forallb (fun ranks => straight_eqb (_is_straight ranks) (expected_straight ranks))
    (rank_sets 13) = true.
Proof. vm_compute. reflexivity. Qed.

(** X4. On distinct ranks in descending order [_is_straight] reports the
    highest run of five consecutive ranks when there is one; failing that the
    wheel, with high rank 3, when A,5,4,3,2 are all present; and otherwise
    [(False, -1)].  An ace-high or any other run takes precedence over the
    wheel. *)
Theorem is_straight_highest_run (ranks : list Z) :
  strictly_descending ranks -> Forall (fun r => 0 <= r <= 12) ranks ->
  _is_straight ranks = expected_straight ranks.
Proof.
  intros D F.
  pose proof _is_straight_all_rank_sets as C. rewrite forallb_forall in C.
  assert (I : In ranks (rank_sets 13)).
  { apply rank_sets_complete; auto.
    eapply Forall_impl; [|exact F]. simpl. intros; lia. }
  specialize (C _ I). unfold straight_eqb in C.
  apply andb_true_iff in C. destruct C as [C1 C2].
  apply Bool.eqb_prop in C1. apply Z.eqb_eq in C2.
  destruct (_is_straight ranks), (expected_straight ranks). simpl in *. congruence.
Qed.

Lemma is_straight_highest_run_witness :
  strictly_descending [12; 7; 6; 5; 4; 3; 2; 1; 0]
  /\ _is_straight [12; 7; 6; 5; 4; 3; 2; 1; 0] = (true, 7).
Proof.
  assert (D : strictly_descending [12; 7; 6; 5; 4; 3; 2; 1; 0]) by (simpl; lia).
  split; [exact D|].
  rewrite (is_straight_highest_run [12; 7; 6; 5; 4; 3; 2; 1; 0] D).
  - reflexivity.
  - repeat (constructor; [lia|]); constructor.
Defined.

Lemma all_rank_pairs_ok :
  forallb (fun hi => pair_ok hi
             && forallb (fun lo => (hi =? lo) || nonpair_ok hi lo) (py_range 0 13))
    (py_range 0 13) = true.
Proof. vm_compute. reflexivity. Qed.

Lemma canonicalb_spec c : canonicalb c = true <-> canonical c.
Proof.
  unfold canonicalb, canonical. rewrite !andb_true_iff, !Z.leb_le, Z.ltb_lt. tauto.
Qed.

Lemma distinctb_NoDup l : distinctb l = true -> NoDup l.
Proof.
  induction l as [|c l IH]; simpl; intros H; constructor.
  - apply andb_true_iff in H. destruct H as [H _].
    apply negb_true_iff in H. intros I.
    assert (existsb (Ranges.combo_eqb c) l = true); [|congruence].
    apply existsb_exists. exists c. split; auto. apply combo_eqb_eq. reflexivity.
  - apply andb_true_iff in H. destruct H as [_ H]. auto.
Qed.

Lemma pair_combos_ok r : 0 <= r <= 12 -> pair_ok r = true.
Proof.
  intros Hr. pose proof all_rank_pairs_ok as C. rewrite forallb_forall in C.
  specialize (C r). rewrite in_py_range in C.
  destruct (proj1 (andb_true_iff _ _) (C ltac:(lia))) as [P _]. exact P.
Qed.

Lemma nonpair_combos_ok hi lo :
  0 <= hi <= 12 -> 0 <= lo <= 12 -> hi <> lo -> nonpair_ok hi lo = true.
Proof.
  intros Hh Hl D. pose proof all_rank_pairs_ok as C. rewrite forallb_forall in C.
  specialize (C hi). rewrite in_py_range in C.
  destruct (proj1 (andb_true_iff _ _) (C ltac:(lia))) as [_ Q].
  rewrite forallb_forall in Q. specialize (Q lo). rewrite in_py_range in Q.
  specialize (Q ltac:(lia)). apply orb_true_iff in Q. destruct Q as [Q|Q]; auto.
  apply Z.eqb_eq in Q. contradiction.
Qed.

Lemma two_rank_combos (r_hi r_lo : Z) :
  0 <= r_hi <= 12 -> 0 <= r_lo <= 12 ->
  (length (Ranges._all_pair_combos r_hi) = 6%nat
   /\ NoDup (Ranges._all_pair_combos r_hi)
   /\ forall c, In c (Ranges._all_pair_combos r_hi) ->
        canonical c /\ ranks_of c = (r_hi, r_hi))
  /\ (r_hi <> r_lo ->
      length (Ranges._all_suited_combos r_hi r_lo) = 4%nat
      /\ length (Ranges._all_offsuit_combos r_hi r_lo) = 12%nat
      /\ length (Ranges._all_both_combos r_hi r_lo) = 16%nat
      /\ NoDup (Ranges._all_both_combos r_hi r_lo)
      /\ (forall c, In c (Ranges._all_both_combos r_hi r_lo) <->
            In c (Ranges._all_suited_combos r_hi r_lo)
            \/ In c (Ranges._all_offsuit_combos r_hi r_lo))
      /\ (forall c, In c (Ranges._all_suited_combos r_hi r_lo) ->
            _suit (fst c) = _suit (snd c))
      /\ (forall c, In c (Ranges._all_offsuit_combos r_hi r_lo) ->
            _suit (fst c) <> _suit (snd c))
      /\ (forall c, In c (Ranges._all_both_combos r_hi r_lo) ->
            canonical c
            /\ (ranks_of c = (r_hi, r_lo) \/ ranks_of c = (r_lo, r_hi)))).
Proof.
  intros Hh Hl. split.
  - pose proof (pair_combos_ok r_hi Hh) as P. unfold pair_ok in P.
    repeat (apply andb_true_iff in P; destruct P as [P ?]).
    split; [apply Nat.eqb_eq; exact P|]. split; [apply distinctb_NoDup; assumption|].
    intros c Hc.
    match goal with H : forallb _ _ = true |- _ =>
      rewrite forallb_forall in H; specialize (H c Hc);
      apply andb_true_iff in H; destruct H as [K1 K2] end.
    split; [apply canonicalb_spec; exact K1|].
    unfold has_ranks in K2. unfold ranks_of.
    apply orb_true_iff in K2.
    destruct K2 as [K2|K2]; apply andb_true_iff in K2; destruct K2 as [A B];
      apply Z.eqb_eq in A; apply Z.eqb_eq in B; congruence.
  - intros D. pose proof (nonpair_combos_ok r_hi r_lo Hh Hl D) as P.
    unfold nonpair_ok in P.
    apply andb_true_iff in P; destruct P as [P Hsup].
    apply andb_true_iff in P; destruct P as [P Hsub].
    apply andb_true_iff in P; destruct P as [P Hoff].
    apply andb_true_iff in P; destruct P as [P Hsuit].
    apply andb_true_iff in P; destruct P as [P Hcan].
    apply andb_true_iff in P; destruct P as [P Hnd].
    apply andb_true_iff in P; destruct P as [P Lb].
    apply andb_true_iff in P; destruct P as [Ls Lo].
    rewrite forallb_forall in Hsup, Hsub, Hoff, Hsuit, Hcan.
    split; [apply Nat.eqb_eq; exact Ls|]. split; [apply Nat.eqb_eq; exact Lo|].
    split; [apply Nat.eqb_eq; exact Lb|]. split; [apply distinctb_NoDup; exact Hnd|].
    split; [|split; [|split]].
    + intros c. split.
      * intros Hc. apply in_app_or. specialize (Hsup c Hc).
        apply existsb_exists in Hsup. destruct Hsup as [c' [I E]].
        apply combo_eqb_eq in E. subst. exact I.
      * intros Hc. specialize (Hsub c (in_or_app _ _ _ Hc)).
        apply existsb_exists in Hsub. destruct Hsub as [c' [I E]].
        apply combo_eqb_eq in E. subst. exact I.
    + intros c Hc. specialize (Hsuit c Hc). apply Z.eqb_eq. exact Hsuit.
    + intros c Hc. specialize (Hoff c Hc). apply negb_true_iff in Hoff.
      apply Z.eqb_neq. exact Hoff.
    + intros c Hc. specialize (Hcan c Hc). apply andb_true_iff in Hcan.
      destruct Hcan as [K1 K2]. split; [apply canonicalb_spec; exact K1|].
      unfold has_ranks in K2. unfold ranks_of. apply orb_true_iff in K2.
      destruct K2 as [K2|K2]; apply andb_true_iff in K2; destruct K2 as [A B];
        apply Z.eqb_eq in A; apply Z.eqb_eq in B; [left|right]; congruence.
Qed.

(** X5. For two different ranks the suited combos are the 4 same-suit pairs,
    the offsuit combos the 12 mixed-suit pairs, and their union 16 distinct
    combos, each a sorted pair of deck cards with exactly those ranks; a pair
    rank gives 6 distinct sorted pairs of cards of that rank. *)
Theorem combos_of_two_ranks (r_hi r_lo : Z) :
  0 <= r_hi <= 12 -> 0 <= r_lo <= 12 ->
  (length (Ranges._all_pair_combos r_hi) = 6%nat
   /\ NoDup (Ranges._all_pair_combos r_hi)
   /\ forall c, In c (Ranges._all_pair_combos r_hi) ->
        canonical c /\ ranks_of c = (r_hi, r_hi))
  /\ (r_hi <> r_lo ->
      length (Ranges._all_suited_combos r_hi r_lo) = 4%nat
      /\ length (Ranges._all_offsuit_combos r_hi r_lo) = 12%nat
      /\ length (Ranges._all_both_combos r_hi r_lo) = 16%nat
      /\ NoDup (Ranges._all_both_combos r_hi r_lo)
      /\ (forall c, In c (Ranges._all_both_combos r_hi r_lo) <->
            In c (Ranges._all_suited_combos r_hi r_lo)
            \/ In c (Ranges._all_offsuit_combos r_hi r_lo))
      /\ (forall c, In c (Ranges._all_suited_combos r_hi r_lo) ->
            _suit (fst c) = _suit (snd c))
      /\ (forall c, In c (Ranges._all_offsuit_combos r_hi r_lo) ->
            _suit (fst c) <> _suit (snd c))
      /\ (forall c, In c (Ranges._all_both_combos r_hi r_lo) ->
            canonical c
            /\ (ranks_of c = (r_hi, r_lo) \/ ranks_of c = (r_lo, r_hi)))).
Proof. exact (two_rank_combos r_hi r_lo). Qed.

Lemma combos_of_two_ranks_witness :
  0 <= 12 <= 12 /\ 0 <= 11 <= 12
  /\ length (Ranges._all_offsuit_combos 12 11) = 12%nat
  /\ length (Ranges._all_pair_combos 12) = 6%nat.
Proof.
  assert (A : 0 <= 12 <= 12) by lia. assert (B : 0 <= 11 <= 12) by lia.
  destruct (combos_of_two_ranks 12 11 A B) as [[P _] Q].
  destruct (Q ltac:(lia)) as [_ [O _]].
  repeat split; try lia; assumption.
Defined.

Lemma in_all_combos c : canonical c -> In c all_combos.
Proof.
  destruct c as [a b]. intros H. unfold canonical in H. cbn [fst snd] in H.
  unfold all_combos. apply in_flat_map. exists a. split.
  - apply in_py_range. lia.
  - apply in_map. apply in_py_range. lia.
Qed.

Lemma all_combos_length : length all_combos = 1326%nat.
Proof. vm_compute. reflexivity. Qed.

(* ----------------------------------------------------------------- *)
(** *** Sets built by the expander hold canonical combos *)

Lemma set_add_Forall (P : combo -> Prop) s c :
  Forall P s -> P c -> Forall P (Ranges.set_add s c).
Proof.
  intros Hs Hc. unfold Ranges.set_add.
  destruct (existsb (Ranges.combo_eqb c) s); auto.
  apply Forall_app. split; auto.
Qed.

Lemma set_union_Forall (P : combo -> Prop) t : forall s,
  Forall P s -> Forall P t -> Forall P (Ranges.set_union s t).
Proof.
  unfold Ranges.set_union.
  induction t as [|c t IH]; simpl; intros s Hs Ht; auto.
  inversion Ht; subst. apply IH; auto. apply set_add_Forall; auto.
Qed.

Lemma fold_union_Forall {A} (P : combo -> Prop) (f : list combo -> A -> list combo)
    (Q : A -> Prop) (l : list A) :
  (forall acc x, Forall P acc -> Q x -> Forall P (f acc x)) ->
  Forall Q l -> forall acc, Forall P acc -> Forall P (fold_left f l acc).
Proof.
  intros Hf. induction 1 as [|x l Hx Hl IH]; simpl; intros acc Ha; auto.
Qed.

Lemma pair_combos_canonical r :
  0 <= r <= 12 -> Forall canonical (Ranges._all_pair_combos r).
Proof.
  intros Hr. destruct (two_rank_combos r r Hr Hr) as [[_ [_ H]] _].
  apply Forall_forall. intros c Hc. apply (H c Hc).
Qed.

Lemma both_combos_canonical h l :
  0 <= h <= 12 -> 0 <= l <= 12 -> h <> l ->
  Forall canonical (Ranges._all_both_combos h l)
  /\ Forall canonical (Ranges._all_suited_combos h l)
  /\ Forall canonical (Ranges._all_offsuit_combos h l).
Proof.
  intros Hh Hl D. destruct (two_rank_combos h l Hh Hl) as [_ H].
  destruct (H D) as [_ [_ [_ [_ [U [_ [_ K]]]]]]].
  split; [|split]; apply Forall_forall; intros c Hc; apply K.
  - exact Hc.
  - apply U. left. exact Hc.
  - apply U. right. exact Hc.
Qed.

Lemma add_nonpair_canonical so combos h l :
  0 <= h <= 12 -> 0 <= l <= 12 -> h <> l ->
  Forall canonical combos -> Forall canonical (Ranges.add_nonpair so combos h l).
Proof.
  intros Hh Hl D Hc. destruct (both_combos_canonical h l Hh Hl D) as [B [S O]].
  unfold Ranges.add_nonpair. destruct so as [c|].
  - destruct (Str.eqb (Str.lower c) "s"); apply set_union_Forall; auto.
  - apply set_union_Forall; auto.
Qed.

Lemma index_of_bound c l i : Str.index_of c l = Some i -> (i < length l)%nat.
Proof.
  revert i. induction l as [|x l IH]; simpl; intros i H; [discriminate|].
  destruct (Str.eqb x c).
  - inversion H; lia.
  - destruct (Str.index_of c l) as [j|]; [|discriminate].
    inversion H; subst. specialize (IH j eq_refl). lia.
Qed.

Lemma index_of_inj a b l i :
  Str.index_of a l = Some i -> Str.index_of b l = Some i -> a = b.
Proof.
  revert i. induction l as [|x l IH]; simpl; intros i Ha Hb; [discriminate|].
  destruct (Str.eqb x a) eqn:Ea, (Str.eqb x b) eqn:Eb.
  - apply Ascii.eqb_eq in Ea, Eb. congruence.
  - destruct (Str.index_of b l); [|discriminate]. inversion Ha; subst. discriminate.
  - destruct (Str.index_of a l); [|discriminate]. inversion Hb; subst. discriminate.
  - destruct (Str.index_of a l) as [j|]; [|discriminate].
    destruct (Str.index_of b l) as [k|]; [|discriminate].
    inversion Ha; inversion Hb; subst. apply (IH k); congruence.
Qed.

Lemma _rank_idx_bound rc i : Ranges._rank_idx rc = Ok i -> 0 <= i <= 12.
Proof.
  unfold Ranges._rank_idx.
  destruct (Str.index_of (Str.upper rc) Ranges._RANKS) as [j|] eqn:E; [|discriminate].
  intros H. inversion H; subst. apply index_of_bound in E. simpl in E. lia.
Qed.

Lemma _rank_idx_inj a b i :
  Ranges._rank_idx a = Ok i -> Ranges._rank_idx b = Ok i -> Str.upper a = Str.upper b.
Proof.
  unfold Ranges._rank_idx.
  destruct (Str.index_of (Str.upper a) Ranges._RANKS) as [j|] eqn:Ea; [|discriminate].
  destruct (Str.index_of (Str.upper b) Ranges._RANKS) as [k|] eqn:Eb; [|discriminate].
  intros H1 H2. inversion H1; inversion H2; subst.
  assert (j = k) by lia. subst. eapply index_of_inj; eauto.
Qed.

Lemma _expand_simple_token_canonical hi lo so plus s :
  Ranges._expand_simple_token hi lo so plus = Ok s -> Forall canonical s.
Proof.
  unfold Ranges._expand_simple_token.
  destruct (Ranges._rank_idx hi) as [hi_i|] eqn:Ehi; [|discriminate].
  pose proof (_rank_idx_bound _ _ Ehi) as Bhi.
  cbv beta iota delta [bind].
  assert (Ha : Ranges._rank_idx "A" = Ok 12) by reflexivity. rewrite Ha.
  destruct lo as [lo|].
  - destruct (Ranges._rank_idx lo) as [lo_i|] eqn:Elo; [|discriminate].
    pose proof (_rank_idx_bound _ _ Elo) as Blo.
    destruct (Str.eqb (Str.upper hi) (Str.upper lo)) eqn:Ep.
    + (* a pair written with both ranks *)
      simpl. intros H. inversion H; subst; clear H.
      apply fold_union_Forall with (Q := fun r => 0 <= r <= 12); auto.
      * intros acc r Hacc Hr. apply set_union_Forall; auto.
        apply pair_combos_canonical; auto.
      * destruct plus; [|repeat constructor; lia].
        apply Forall_forall. intros r Hr. apply in_py_range in Hr. lia.
    + (* two different ranks *)
      assert (D : hi_i <> lo_i).
      { intros ->. apply Ascii.eqb_neq in Ep. apply Ep.
        eapply _rank_idx_inj; eauto. }
      simpl negb. cbv beta iota.
      destruct (hi_i <? lo_i) eqn:Elt; simpl;
        [apply Z.ltb_lt in Elt | apply Z.ltb_ge in Elt];
        destruct plus; intros H; inversion H; subst; clear H.
      * apply fold_union_Forall with (Q := fun h => lo_i <= h <= 12); auto.
        -- intros acc h Hacc Hh. destruct (Z.eqb_spec h hi_i); auto.
           apply add_nonpair_canonical; auto; lia.
        -- apply Forall_forall. intros h Hh. apply in_py_range in Hh. lia.
      * apply add_nonpair_canonical; auto; lia.
      * apply fold_union_Forall with (Q := fun h => hi_i <= h <= 12); auto.
        -- intros acc h Hacc Hh. destruct (Z.eqb_spec h lo_i); auto.
           apply add_nonpair_canonical; auto; lia.
        -- apply Forall_forall. intros h Hh. apply in_py_range in Hh. lia.
      * apply add_nonpair_canonical; auto; lia.
  - simpl. intros H. inversion H; subst; clear H.
    apply fold_union_Forall with (Q := fun r => 0 <= r <= 12); auto.
    + intros acc r Hacc Hr. apply set_union_Forall; auto.
      apply pair_combos_canonical; auto.
    + destruct plus; [|repeat constructor; lia].
      apply Forall_forall. intros r Hr. apply in_py_range in Hr. lia.
Qed.

Lemma union_all_canonical steps : forall acc s,
  (forall r u, In r steps -> r = Ok u -> Forall canonical u) ->
  Forall canonical acc -> Ranges.union_all steps acc = Ok s -> Forall canonical s.
Proof.
  induction steps as [|r steps IH]; simpl; intros acc s Hs Ha E.
  - inversion E; subst; auto.
  - destruct r as [u|]; [|discriminate]. simpl in E.
    eapply IH; [| |exact E].
    + intros r' u' Hr'. apply Hs. right; auto.
    + apply set_union_Forall; auto. eapply Hs; [left; reflexivity|reflexivity].
Qed.

Lemma _expand_dash_range_canonical token s :
  Ranges._expand_dash_range token = Ok s -> Forall canonical s.
Proof.
  unfold Ranges._expand_dash_range.
  destruct (Str.split_first "-" token) as [[lhs rhs]|]; [|discriminate].
  destruct (Ranges._TOKEN_match (Str.strip lhs)) as [m1|]; [|discriminate].
  destruct (Ranges._TOKEN_match (Str.strip rhs)) as [m2|]; [|discriminate].
  destruct (Ranges.g_plus m1 || Ranges.g_plus m2); [discriminate|].
  destruct (Ranges.g_lo m1) as [lo1|]; [|discriminate].
  destruct (Ranges.g_lo m2) as [lo2|]; [|discriminate].
  destruct (negb _); [discriminate|]. destruct (negb _); [discriminate|].
  destruct (Ranges._rank_idx (Ranges.g_hi m1)); [|discriminate].
  destruct (Ranges._rank_idx lo1); [|discriminate].
  destruct (Ranges._rank_idx lo2); [|discriminate].
  cbv beta iota delta [bind].
  apply union_all_canonical; [|constructor].
  intros r u Hr Er. apply in_map_iff in Hr. destruct Hr as [l [Hr _]]. subst r.
  destruct (Py.index Ranges._RANKS (Z.to_nat l)) as [rc|]; [|discriminate].
  simpl in Er. eapply _expand_simple_token_canonical; eauto.
Qed.

Lemma parse_parts_canonical parts : forall acc s,
  Forall canonical acc -> Ranges.parse_parts parts acc = Ok s -> Forall canonical s.
Proof.
  induction parts as [|p parts IH]; simpl; intros acc s Ha E.
  - inversion E; subst; auto.
  - destruct (existsb (Str.eqb "-") p).
    + destruct (Ranges._expand_dash_range p) as [u|] eqn:Eu; [|discriminate]. simpl in E.
      eapply IH; [|exact E]. apply set_union_Forall; auto.
      eapply _expand_dash_range_canonical; eauto.
    + destruct (Ranges._TOKEN_match p) as [m|]; [|discriminate].
      destruct (Ranges._expand_simple_token _ _ _ _) as [u|] eqn:Eu; [|discriminate].
      simpl in E. eapply IH; [|exact E]. apply set_union_Forall; auto.
      eapply _expand_simple_token_canonical; eauto.
Qed.

Lemma parse_range_canonical text s :
  Ranges.parse_range text = Ok s -> Forall canonical s.
Proof.
  unfold Ranges.parse_range.
  destruct (Str.strip _); [discriminate|].
  apply parse_parts_canonical. constructor.
Qed.

Lemma parse_range_size text s :
  Ranges.parse_range text = Ok s -> (length s <= 1326)%nat.
Proof.
  intros E. rewrite <- all_combos_length. apply NoDup_incl_length.
  - eapply parse_range_NoDup; eauto.
  - intros c Hc. apply in_all_combos.
    pose proof (parse_range_canonical _ _ E) as F. rewrite Forall_forall in F. auto.
Qed.

(** X6. Whatever the text, a range that [parse_range] returns is a set of at
    most 1326 combos without repetition, each a pair of two different cards
    of the deck with the smaller card first. *)
Theorem parse_range_yields_canonical_combos (text : string) (combos : list combo) :
  Ranges.parse_range text = Ok combos ->
  NoDup combos
  /\ (length combos <= 1326)%nat
  /\ forall c1 c2, In (c1, c2) combos -> 0 <= c1 /\ c1 < c2 /\ c2 <= 51.
Proof.
  intros E. split; [eapply parse_range_NoDup; eauto|].
  split; [eapply parse_range_size; eauto|].
  intros c1 c2 Hc. pose proof (parse_range_canonical _ _ E) as F.
  rewrite Forall_forall in F. apply (F (c1, c2) Hc).
Qed.

Lemma parse_range_yields_canonical_combos_witness :
  NoDup [(11, 12); (24, 25); (37, 38); (50, 51)]
  /\ (length [(11, 12); (24, 25); (37, 38); (50, 51)] <= 1326)%nat.
Proof.
  destruct (parse_range_yields_canonical_combos "AKs"
              [(11, 12); (24, 25); (37, 38); (50, 51)]) as [N [L _]].
  - vm_compute. reflexivity.
  - split; assumption.
Defined.

(* ----------------------------------------------------------------- *)
(** *** Empty and separator-only range texts *)

Lemma lstrip_all_space s : forallb Str.is_space s = true -> Str.lstrip s = [].
Proof.
  induction s as [|c s IH]; simpl; auto.
  intros H. apply andb_true_iff in H. destruct H as [Hc Hs]. rewrite Hc. auto.
Qed.

Lemma lstrip_nil_all_space s : Str.lstrip s = [] -> forallb Str.is_space s = true.
Proof.
  induction s as [|c s IH]; simpl; auto.
  destruct (Str.is_space c); [auto|discriminate].
Qed.

Lemma lstrip_incl s : forall c, In c (Str.lstrip s) -> In c s.
Proof.
  induction s as [|x s IH]; simpl; auto.
  destruct (Str.is_space x); intros c H; auto.
Qed.

Lemma strip_all_space s : forallb Str.is_space s = true -> Str.strip s = [].
Proof.
  intros H. unfold Str.strip. rewrite (lstrip_all_space _ H). reflexivity.
Qed.

Lemma forallb_rev {A} (f : A -> bool) l : forallb f (rev l) = forallb f l.
Proof.
  induction l as [|x l IH]; simpl; auto.
  rewrite forallb_app, IH. simpl. rewrite andb_true_r. apply andb_comm.
Qed.

Lemma lstrip_head s c r : Str.lstrip s = c :: r -> Str.is_space c = false.
Proof.
  induction s as [|x s IH]; simpl; [discriminate|].
  destruct (Str.is_space x) eqn:E; auto.
  intros H. inversion H; subst. exact E.
Qed.

Lemma strip_not_all_space s : forallb Str.is_space s = false -> Str.strip s <> [].
Proof.
  intros H Hs. unfold Str.strip in Hs.
  destruct (Str.lstrip s) as [|c r] eqn:E.
  - apply lstrip_nil_all_space in E. congruence.
  - pose proof (lstrip_head _ _ _ E) as Hc.
    assert (R : rev (Str.lstrip (rev (c :: r))) = []) by exact Hs.
    apply (f_equal (@rev ascii)) in R. rewrite rev_involutive in R. simpl rev in R.
    apply lstrip_nil_all_space in R. rewrite forallb_app in R. simpl in R.
    rewrite Hc in R. rewrite andb_false_r in R. discriminate.
Qed.

Lemma runs_all_sep sep s : forallb sep s = true -> Str.runs sep s [] = [].
Proof.
  induction s as [|c s IH]; simpl; auto.
  intros H. apply andb_true_iff in H. destruct H as [Hc Hs]. rewrite Hc. auto.
Qed.

(** X7. A range text that is empty or made of white space only is rejected
    with the error "Range vide"; a text made of separators with at least one
    comma is accepted and denotes the empty range. *)
Theorem parse_range_blank_text (text : string) :
  let chars := list_ascii_of_string text in
  (forallb Str.is_space chars = true ->
     Ranges.parse_range text = Raise (ValueError "Range vide"))
  /\ (forallb Ranges.is_sep chars = true -> forallb Str.is_space chars = false ->
        Ranges.parse_range text = Ok []).
Proof.
  intros chars. split.
  - intros H. unfold Ranges.parse_range. fold chars. rewrite (strip_all_space _ H).
    reflexivity.
  - intros Hs Hn. unfold Ranges.parse_range. fold chars.
    destruct (Str.strip chars) eqn:E.
    + exfalso. exact (strip_not_all_space _ Hn E).
    + rewrite (runs_all_sep _ _ Hs). reflexivity.
Qed.

Lemma parse_range_blank_text_witness :
  Ranges.parse_range "  " = Raise (ValueError "Range vide")
  /\ Ranges.parse_range " , ," = Ok [].
Proof.
  split.
  - apply (proj1 (parse_range_blank_text "  ")). reflexivity.
  - apply (proj2 (parse_range_blank_text " , ,")); reflexivity.
Defined.

(* ----------------------------------------------------------------- *)
(** *** Dead cards *)

Lemma keep_live_fold dead combos : forall out,
  fold_left (keep_live dead) combos out
  = out ++ List.map normalise (filter (live dead) combos).
Proof.
  induction combos as [|[c1 c2] combos IH]; intros out; simpl.
  - rewrite app_nil_r. reflexivity.
  - rewrite IH. unfold live at 2. cbn [fst snd].
    destruct (negb (Py.mem c1 dead) && negb (Py.mem c2 dead) && negb (c1 =? c2)).
    + rewrite <- app_assoc. reflexivity.
    + reflexivity.
Qed.

Lemma filter_dead_combos_filter combos dead :
  Ranges.filter_dead_combos combos dead = List.map normalise (filter (live dead) combos).
Proof.
  rewrite filter_dead_combos_fold, keep_live_fold. reflexivity.
Qed.

Lemma live_spec dead c :
  live dead c = true <-> ~ In (fst c) dead /\ ~ In (snd c) dead /\ fst c <> snd c.
Proof.
  unfold live. rewrite !andb_true_iff, !negb_true_iff, Z.eqb_neq.
  rewrite <- !not_true_iff_false, !mem_In. tauto.
Qed.

Lemma filter_length_le {A} (f : A -> bool) l : (length (filter f l) <= length l)%nat.
Proof.
  induction l as [|x l IH]; simpl; auto. destruct (f x); simpl; lia.
Qed.

(** X8. [filter_dead_combos] never returns more combos than it was given;
    every combo it returns is free of dead cards, has its smaller card first
    and two different cards, and comes from a combo of the input; and every
    input combo of two different live cards is returned, in canonical
    order. *)
Theorem filter_dead_combos_sound_and_complete (combos : list combo) (dead : list Z) :
  let avail := Ranges.filter_dead_combos combos dead in
  (length avail <= length combos)%nat
  /\ (forall c1 c2, In (c1, c2) avail ->
        ~ In c1 dead /\ ~ In c2 dead /\ c1 < c2
        /\ (In (c1, c2) combos \/ In (c2, c1) combos))
  /\ (forall c1 c2, In (c1, c2) combos -> ~ In c1 dead -> ~ In c2 dead -> c1 <> c2 ->
        In (Z.min c1 c2, Z.max c1 c2) avail).
Proof.
  intros avail. unfold avail. rewrite filter_dead_combos_filter. split; [|split].
  - rewrite length_map. apply filter_length_le.
  - intros c1 c2 H. apply in_map_iff in H. destruct H as [[a b] [E H]].
    apply filter_In in H. destruct H as [I L]. apply live_spec in L. cbn [fst snd] in L.
    unfold normalise in E. cbn [fst snd] in E. inversion E; subst; clear E.
    destruct L as [La [Lb Lab]].
    destruct (Z.min_spec a b) as [[? ->]|[? ->]], (Z.max_spec a b) as [[? ->]|[? ->]];
      try lia; repeat split; auto; try lia.
  - intros c1 c2 I D1 D2 D. apply in_map_iff. exists (c1, c2). split; [reflexivity|].
    apply filter_In. split; [exact I|]. apply live_spec. cbn [fst snd]. tauto.
Qed.

Lemma filter_dead_combos_sound_and_complete_witness :
  In (12, 24) (Ranges.filter_dead_combos [(24, 12); (11, 12); (5, 5)] [11]).
Proof.
  apply (proj2 (proj2 (filter_dead_combos_sound_and_complete
                         [(24, 12); (11, 12); (5, 5)] [11])) 24 12).
  - left. reflexivity.
  - intros [H|[]]. discriminate.
  - intros [H|[]]. discriminate.
  - discriminate.
Defined.

(* ----------------------------------------------------------------- *)
(** *** The deck, in full *)

Lemma check_bounds_inv known :
  (Cards.check_bounds known = Ok tt /\ Forall card_in_deck known)
  \/ (exists msg, Cards.check_bounds known = Raise (CardParseError msg)
                  /\ ~ Forall card_in_deck known).
Proof.
  induction known as [|c l IH]; simpl.
  - left. split; auto.
  - destruct (Z.leb_spec 0 c); simpl.
    + destruct (Z.leb_spec c 51); simpl.
      * destruct IH as [[E F]|[msg [E F]]].
        -- left. split; auto. constructor; auto. unfold card_in_deck; lia.
        -- right. exists msg. split; auto. intros G. inversion G; auto.
      * right. eexists. split; [reflexivity|]. intros G. inversion G; subst.
        unfold card_in_deck in *. lia.
    + right. eexists. split; [reflexivity|]. intros G. inversion G; subst.
      unfold card_in_deck in *. lia.
Qed.

Lemma nodup_length_le (l : list Z) : (length (nodup Z.eq_dec l) <= length l)%nat.
Proof.
  induction l as [|x l IH]; simpl; auto.
  destruct (in_dec Z.eq_dec x l); simpl; lia.
Qed.

Lemma nodup_same_length (l : list Z) :
  length (nodup Z.eq_dec l) = length l -> NoDup l.
Proof.
  induction l as [|x l IH]; simpl; intros H; [constructor|].
  destruct (in_dec Z.eq_dec x l) as [I|I]; simpl in H.
  - pose proof (nodup_length_le l). lia.
  - constructor; auto.
Qed.

Lemma deck_without_rejects known :
  ~ (NoDup known /\ Forall card_in_deck known) ->
  exists msg, Cards.deck_without known = Raise (CardParseError msg).
Proof.
  intros H. unfold Cards.deck_without.
  destruct (check_bounds_inv known) as [[E F]|[msg [E F]]]; rewrite E.
  - cbv beta iota delta [bind]. unfold Cards.ensure_no_duplicates, Py.distinct.
    destruct (Nat.eqb_spec (length (nodup Z.eq_dec known)) (length known)) as [L|L].
    + exfalso. apply H. split; auto. apply nodup_same_length; auto.
    + eexists. reflexivity.
  - exists msg. reflexivity.
Qed.

Lemma seq_map_sorted (f : nat -> Z) :
  (forall i j, (i < j)%nat -> f i < f j) ->
  forall count start, StronglySorted Z.lt (List.map f (seq start count)).
Proof.
  intros Hf count. induction count as [|count IH]; intros start; simpl; constructor; auto.
  apply Forall_forall. intros y Hy. apply in_map_iff in Hy.
  destruct Hy as [j [<- Hj]]. apply in_seq in Hj. apply Hf. lia.
Qed.

Lemma py_range_sorted a b : StronglySorted Z.lt (py_range a b).
Proof.
  unfold py_range. apply seq_map_sorted. intros; lia.
Qed.

Lemma filter_sorted (f : Z -> bool) l :
  StronglySorted Z.lt l -> StronglySorted Z.lt (filter f l).
Proof.
  induction 1 as [|x l S IH F]; simpl; [constructor|].
  destruct (f x); auto. constructor; auto.
  rewrite Forall_forall in *. intros y Hy. apply filter_In in Hy. apply F. tauto.
Qed.

(** X9. [deck_without] succeeds exactly when the known cards are distinct
    cards of the deck; the deck it returns is then in ascending order, without
    repetition, of 52 minus the number of known cards, and holds the cards of
    the deck that are not known.  Otherwise it raises [CardParseError]. *)
Theorem deck_without_complement (known : list Z) :
  (NoDup known -> Forall card_in_deck known ->
   exists deck, Cards.deck_without known = Ok deck
     /\ Z.of_nat (length deck) = 52 - Z.of_nat (length known)
     /\ StronglySorted Z.lt deck
     /\ forall c, In c deck <-> card_in_deck c /\ ~ In c known)
  /\ (~ (NoDup known /\ Forall card_in_deck known) ->
      exists msg, Cards.deck_without known = Raise (CardParseError msg)).
Proof.
  split; [|apply deck_without_rejects].
  intros N F. pose proof (deck_without_ok known N F) as E.
  eexists. split; [exact E|].
  split; [|split].
  - unfold Cards.deck_without in E.
    rewrite (check_bounds_ok _ F) in E.
    unfold Cards.ensure_no_duplicates, Py.distinct in E.
    rewrite (nodup_fixed_point Z.eq_dec N), Nat.eqb_refl in E.
    cbv beta iota delta [bind] in E.
    match type of E with
    | (if negb (?a =? ?b) then _ else _) = _ => destruct (Z.eqb_spec a b) as [Q|Q]
    end; [exact Q|discriminate E].
  - apply filter_sorted. apply py_range_sorted.
  - intros c. rewrite filter_In, in_py_range, negb_true_iff.
    rewrite <- not_true_iff_false, mem_In. unfold card_in_deck. intuition lia.
Qed.

Lemma deck_without_complement_witness :
  exists deck, Cards.deck_without [12; 25] = Ok deck
               /\ Z.of_nat (length deck) = 52 - 2
  /\ exists msg, Cards.deck_without [12; 12] = Raise (CardParseError msg).
Proof.
  destruct (proj1 (deck_without_complement [12; 25])) as [deck [E [L _]]].
  - distinct_cards.
  - unfold card_in_deck; cards_in_deck.
  - exists deck. split; [exact E|]. split; [exact L|].
    apply (proj2 (deck_without_complement [12; 12])).
    intros [N _]. inversion N; subst. apply H1. left. reflexivity.
Defined.

(** X10. [equity_hu] builds the deck before looking at the board: unless the
    hero's, the villain's and the board cards are all different cards of the
    deck it raises [CardParseError], for a complete board as for any other. *)
Theorem equity_hu_rejects_clashing_cards `{PyRandom}
    (os : entropy) (h1 h2 v1 v2 : Z) (board : list Z) (iters : Z) (seed : option Z) :
  ~ (NoDup (h1 :: h2 :: v1 :: v2 :: board)
     /\ Forall card_in_deck (h1 :: h2 :: v1 :: v2 :: board)) ->
  exists msg,
    equity_hu os (h1, h2) (v1, v2) board iters seed = Raise (CardParseError msg).
Proof.
  intros B. destruct (deck_without_rejects _ B) as [msg E].
  exists msg. unfold equity_hu. rewrite E. reflexivity.
Qed.

Lemma equity_hu_rejects_clashing_cards_witness :
  exists msg,
    @equity_hu Reference.lcg 0 (12, 25) (12, 24) [38; 11; 39; 33; 20] 10 None
    = Raise (CardParseError msg).
Proof.
  apply (@equity_hu_rejects_clashing_cards Reference.lcg 0 12 25 12 24
           [38; 11; 39; 33; 20] 10 None).
  intros [N _]. inversion N as [|? ? N1 N2]; subst. inversion N2 as [|? ? N3 N4]; subst.
  apply N1. right. left. reflexivity.
Defined.

Lemma max_0_not_below x : (Float.max x 0 <? 0)%float = false.
Proof.
  unfold Float.max. destruct (x <? 0)%float eqn:L; [reflexivity|exact L].
Qed.

Lemma min_1_not_above x : (1 <? Float.min x 1)%float = false.
Proof.
  unfold Float.min. destruct (1 <? x)%float eqn:L; [reflexivity|exact L].
Qed.

Lemma mc_report_mirrored wins ties iters m r :
  mc_report wins ties iters m = Ok r -> mirrored r /\ clamped r /\ n (hero r) = iters.
Proof.
  unfold mc_report. intros H. crack H. inversion H; subst; clear H.
  unfold mirrored, clamped. cbn [hero villain equity stdev n ci95 fst snd].
  repeat split.
  - apply max_0_not_below.
  - apply min_1_not_above.
Qed.

(** X11. In every report either estimator returns, the villain's equity is
    one minus the hero's, the villain's interval is one minus the hero's
    bounds taken in the opposite order, and both sides carry the same
    standard error and sample count. *)
Theorem reports_are_mirrored `{PyRandom} `{PySetOrder}
    (os : entropy) (hero_cards villain_cards : Z * Z) (villain_range : string)
    (board : list Z) (iters : Z) (seed : option Z) (r : report) :
  (equity_hu os hero_cards villain_cards board iters seed = Ok r -> mirrored r)
  /\ (equity_vs_range os hero_cards villain_range board iters seed = Ok r -> mirrored r).
Proof.
  destruct hero_cards as [h1 h2], villain_cards as [v1 v2]. split.
  - unfold equity_hu. intros E. crack E.
    destruct (length board =? 5)%nat.
    + crack E. inversion E; subst; clear E. repeat split.
    + crack E. apply mc_report_mirrored in E. tauto.
  - unfold equity_vs_range. intros E. crack E.
    destruct (Ranges.filter_dead_combos _ _) as [|c avail]; [discriminate|].
    crack E. destruct (_ =? 0).
    + crack E. inversion E; subst; clear E. repeat split.
    + crack E. apply mc_report_mirrored in E. tauto.
Qed.

Lemma reports_are_mirrored_witness :
  exists r, @equity_hu Reference.lcg 0 aces kings [] 50 (Some 7) = Ok r /\ mirrored r.
Proof.
  destruct (@equity_hu Reference.lcg 0 aces kings [] 50 (Some 7)) as [r|] eqn:E.
  - exists r. split; [reflexivity|].
    exact (proj1 (@reports_are_mirrored Reference.lcg Reference.in_order
                    0 aces kings "" [] 50 (Some 7) r) E).
  - vm_compute in E. discriminate E.
Defined.

(** X13. The hero's confidence bounds of [equity_hu] never leave [0, 1]:
    the lower one is not below 0 and the upper one not above 1, on a complete
    board as after sampling; the same holds for [equity_vs_range] when it
    samples. *)
Theorem hero_interval_is_clamped `{PyRandom} `{PySetOrder}
    (os : entropy) (hero_cards villain_cards : Z * Z) (villain_range : string)
    (board : list Z) (iters : Z) (seed : option Z) (r : report) :
  (equity_hu os hero_cards villain_cards board iters seed = Ok r -> clamped r)
  /\ (length board <> 5%nat ->
      equity_vs_range os hero_cards villain_range board iters seed = Ok r -> clamped r).
Proof.
  destruct hero_cards as [h1 h2], villain_cards as [v1 v2]. split.
  - unfold equity_hu. intros E. crack E.
    destruct (length board =? 5)%nat.
    + crack E. inversion E; subst; clear E.
      unfold clamped. cbn [hero ci95 fst snd].
      match goal with |- context [score_gtb ?x ?y] => destruct (score_gtb x y) end;
        [split; reflexivity|].
      match goal with |- context [score_ltb ?x ?y] => destruct (score_ltb x y) end;
        split; reflexivity.
    + crack E. apply mc_report_mirrored in E. tauto.
  - intros L. unfold equity_vs_range. intros E. crack E.
    destruct (Ranges.filter_dead_combos _ _) as [|c avail]; [discriminate|].
    crack E. destruct (Z.eqb_spec (5 - Z.of_nat (length board)) 0) as [Q|Q]; [lia|].
    crack E. apply mc_report_mirrored in E. tauto.
Qed.

Lemma hero_interval_is_clamped_witness :
  exists r, @equity_hu Reference.lcg 0 aces kings [] 50 (Some 7) = Ok r /\ clamped r.
Proof.
  destruct (@equity_hu Reference.lcg 0 aces kings [] 50 (Some 7)) as [r|] eqn:E.
  - exists r. split; [reflexivity|].
    exact (proj1 (@hero_interval_is_clamped Reference.lcg Reference.in_order
                    0 aces kings "" [] 50 (Some 7) r) E).
  - vm_compute in E. discriminate E.
Defined.

(* ----------------------------------------------------------------- *)
(** *** Tallies *)

Lemma tally_step s1 s2 w t w' t' :
  tally s1 s2 w t = (w', t') ->
  w <= w' /\ t <= t' /\ (w' - w) + (t' - t) <= 1.
Proof.
  unfold tally. destruct (score_gtb s1 s2); [|destruct (score_eqb s1 s2)];
    intros E; inversion E; subst; lia.
Qed.

Lemma hu_trials_bounded `{PyRandom} h1 h2 v1 v2 board deck need k :
  forall g w t w' t',
    hu_trials h1 h2 v1 v2 board deck need k g w t = Ok (w', t') ->
    w <= w' /\ t <= t' /\ (w' - w) + (t' - t) <= Z.of_nat k.
Proof.
  induction k as [|k IH]; intros g w t w' t' E.
  - simpl in E. inversion E; subst. lia.
  - cbn [hu_trials] in E. crack E.
    match goal with T : tally _ _ _ _ = _ |- _ => apply tally_step in T end.
    apply IH in E. lia.
Qed.

Lemma range_trials_bounded `{PyRandom} h1 h2 board deck0 avail need k :
  forall g w t w' t',
    range_trials h1 h2 board deck0 avail need k g w t = Ok (w', t') ->
    w <= w' /\ t <= t' /\ (w' - w) + (t' - t) <= Z.of_nat k.
Proof.
  induction k as [|k IH]; intros g w t w' t' E.
  - simpl in E. inversion E; subst. lia.
  - cbn [range_trials] in E. crack E.
    match goal with T : tally _ _ _ _ = _ |- _ => apply tally_step in T end.
    apply IH in E. lia.
Qed.

Lemma range_showdowns_bounded h1 h2 board avail :
  forall w t w' t',
    range_showdowns h1 h2 board avail w t = Ok (w', t') ->
    w <= w' /\ t <= t' /\ (w' - w) + (t' - t) <= Z.of_nat (length avail).
Proof.
  induction avail as [|[v1 v2] avail IH]; intros w t w' t' E.
  - simpl in E. inversion E; subst. simpl. lia.
  - cbn [range_showdowns] in E. crack E.
    match goal with T : tally _ _ _ _ = _ |- _ => apply tally_step in T end.
    apply IH in E. cbn [length]. lia.
Qed.

(** X12. Starting from zero, the two sampling loops and the enumeration over
    the range end with counts of wins and ties that are not negative and whose
    sum does not exceed the number of trials, respectively of combos. *)
Theorem wins_and_ties_within_trials `{PyRandom}
    (h1 h2 v1 v2 : Z) (board deck : list Z) (avail : list combo) (need : Z)
    (k : nat) (g : rng) (wins ties : Z) :
  (hu_trials h1 h2 v1 v2 board deck need k g 0 0 = Ok (wins, ties) ->
     0 <= wins /\ 0 <= ties /\ wins + ties <= Z.of_nat k)
  /\ (range_trials h1 h2 board deck avail need k g 0 0 = Ok (wins, ties) ->
        0 <= wins /\ 0 <= ties /\ wins + ties <= Z.of_nat k)
  /\ (range_showdowns h1 h2 board avail 0 0 = Ok (wins, ties) ->
        0 <= wins /\ 0 <= ties /\ wins + ties <= Z.of_nat (length avail)).
Proof.
  split; [|split]; intros E.
  - apply hu_trials_bounded in E. lia.
  - apply range_trials_bounded in E. lia.
  - apply range_showdowns_bounded in E. lia.
Qed.

Lemma wins_and_ties_within_trials_witness :
  exists wins ties,
    range_showdowns 12 25 river [(37, 24); (0, 1)] 0 0 = Ok (wins, ties)
    /\ 0 <= wins /\ 0 <= ties /\ wins + ties <= 2.
Proof.
  destruct (range_showdowns 12 25 river [(37, 24); (0, 1)] 0 0) as [[w t]|] eqn:E.
  - exists w, t. split; [reflexivity|].
    exact (proj2 (proj2 (@wins_and_ties_within_trials Reference.lcg 12 25 0 0 river []
                           [(37, 24); (0, 1)] 0 0%nat 0 w t)) E).
  - vm_compute in E. discriminate E.
Defined.

(* ----------------------------------------------------------------- *)
(** *** The enumeration over a range on a complete board *)

Lemma counts_convert : forallb small_count_ok (py_range 0 1327) = true.
Proof. vm_compute. reflexivity. Qed.

Lemma of_int_small z :
  0 <= z <= 1326 ->
  exists f, Float.of_int z = Ok f /\ (z <> 0 -> (f =? 0)%float = false).
Proof.
  intros Hz. pose proof counts_convert as C. rewrite forallb_forall in C.
  specialize (C z). rewrite in_py_range in C. specialize (C ltac:(lia)).
  unfold small_count_ok in C. destruct (Float.of_int z) as [f|]; [|discriminate].
  exists f. split; [reflexivity|]. intros N.
  apply orb_true_iff in C. destruct C as [C|C].
  - apply Z.eqb_eq in C. contradiction.
  - apply negb_true_iff in C. exact C.
Qed.

Lemma estimate_small wins ties trials :
  0 <= wins <= 1326 -> 0 <= ties <= 1326 -> 0 < trials <= 1326 ->
  exists p, estimate wins ties trials = Ok p.
Proof.
  intros Hw Ht Hn. unfold estimate.
  destruct (of_int_small ties Ht) as [ft [Et _]].
  destruct (of_int_small wins Hw) as [fw [Ew _]].
  destruct (of_int_small trials ltac:(lia)) as [fn [En Zn]].
  rewrite Et, Ew, En. cbv beta iota delta [bind]. unfold Float.div.
  rewrite (Zn ltac:(lia)). eauto.
Qed.

Lemma range_showdowns_total h1 h2 board avail :
  length board = 5%nat ->
  forall w t, exists w' t', range_showdowns h1 h2 board avail w t = Ok (w', t').
Proof.
  intros L. induction avail as [|[v1 v2] avail IH]; intros w t.
  - simpl. eauto.
  - cbn [range_showdowns].
    destruct (evaluate7_max (h1 :: h2 :: board)) as [sh [Eh _]]; [simpl; lia|].
    destruct (evaluate7_max (v1 :: v2 :: board)) as [sv [Ev _]]; [simpl; lia|].
    rewrite Eh, Ev. cbv beta iota delta [bind].
    destruct (tally sh sv w t) as [w1 t1]. apply IH.
Qed.

(** X14. On a complete board [equity_vs_range] never samples.  When the
    hero's and board cards are distinct cards of the deck and some combo of
    the range is left after removing the dead cards, it returns a report
    whose sample count is the number of combos left, whose standard error is
    zero, which records the sizes of the raw and of the filtered range, the
    second not larger than the first, and which records no seed even when
    one was given. *)
Theorem complete_board_range_is_enumerated `{PyRandom} `{PySetOrder}
    (os : entropy) (h1 h2 : Z) (villain_range : string) (board : list Z)
    (iters : Z) (seed : option Z) (raw : list combo) :
  length board = 5%nat ->
  NoDup (h1 :: h2 :: board) -> Forall card_in_deck (h1 :: h2 :: board) ->
  Ranges.parse_range villain_range = Ok raw ->
  let avail := Ranges.filter_dead_combos (set_iter raw) (h1 :: h2 :: board) in
  avail <> [] ->
  exists r,
    equity_vs_range os (h1, h2) villain_range board iters seed = Ok r
    /\ n (hero r) = Z.of_nat (length avail)
    /\ stdev (hero r) = 0%float
    /\ ci95 (hero r) = (equity (hero r), equity (hero r))
    /\ info r = range_meta raw avail None
    /\ (0 < length avail <= length raw)%nat.
Proof.
  intros L N F E avail A.
  assert (La : (length avail <= length raw)%nat).
  { unfold avail. rewrite filter_dead_combos_filter, length_map.
    etransitivity; [apply filter_length_le|].
    rewrite (Permutation_length (set_iter_perm raw)). lia. }
  pose proof (parse_range_size _ _ E) as Lr.
  assert (Lp : (0 < length avail)%nat).
  { destruct avail; [contradiction|simpl; lia]. }
  unfold equity_vs_range. rewrite E. cbv beta iota delta [bind]. fold avail.
  destruct avail as [|c rest] eqn:Ea; [contradiction|].
  rewrite (deck_without_ok _ N F). cbv beta iota delta [bind].
  rewrite L. change (5 - Z.of_nat 5 =? 0) with true. cbv beta iota.
  destruct (range_showdowns_total h1 h2 board (c :: rest) L 0 0) as [w [t Es]].
  rewrite Es. cbv beta iota.
  pose proof (range_showdowns_bounded _ _ _ _ _ _ _ _ Es) as B.
  destruct (estimate_small w t (Z.of_nat (length (c :: rest)))) as [p Ep]; try lia.
  rewrite Ep. eexists. split; [reflexivity|].
  cbn [hero n stdev ci95 equity info]. repeat split; try lia.
Qed.

Lemma complete_board_range_is_enumerated_witness :
  exists r,
    @equity_vs_range Reference.lcg Reference.in_order 0 (12, 25) "KK+"
      [38; 0; 1; 2; 3] 100 (Some 1) = Ok r
    /\ n (hero r) = 6 /\ seed_used (info r) = None.
Proof.
  destruct (@complete_board_range_is_enumerated Reference.lcg Reference.in_order 0 12 25
              "KK+" [38; 0; 1; 2; 3] 100 (Some 1)
              [(11, 24); (11, 37); (11, 50); (24, 37); (24, 50); (37, 50);
               (12, 25); (12, 38); (12, 51); (25, 38); (25, 51); (38, 51)])
    as [r [E [Hn [_ [_ [Hi _]]]]]].
  - reflexivity.
  - distinct_cards.
  - unfold card_in_deck; cards_in_deck.
  - vm_compute. reflexivity.
  - vm_compute. discriminate.
  - exists r. split; [exact E|]. split.
    + rewrite Hn. vm_compute. reflexivity.
    + rewrite Hi. reflexivity.
Defined.

(* ----------------------------------------------------------------- *)
(** *** Cards as text *)

Lemma all_cards_round_trip : forallb round_trip_ok (py_range 0 52) = true.
Proof. vm_compute. reflexivity. Qed.

Lemma card_round_trip card :
  0 <= card <= 51 ->
  exists text, CardText.card_to_str card = Ok text
               /\ CardText.parse_card text = Ok card
               /\ length text = 2%nat.
Proof.
  intros H. pose proof all_cards_round_trip as C. rewrite forallb_forall in C.
  specialize (C card). rewrite in_py_range in C. specialize (C ltac:(lia)).
  unfold round_trip_ok in C.
  destruct (CardText.card_to_str card) as [text|]; [|discriminate].
  destruct (CardText.parse_card text) as [c|] eqn:E; [|discriminate].
  apply andb_true_iff in C. destruct C as [C1 C2].
  apply Z.eqb_eq in C1. apply Nat.eqb_eq in C2. subst c.
  exists text. auto.
Qed.

Lemma card_to_str_out_of_range card :
  ~ 0 <= card <= 51 ->
  CardText.card_to_str card = Raise (CardParseError "Index carte hors bornes").
Proof.
  intros H. unfold CardText.card_to_str.
  destruct (Z.leb_spec 0 card); destruct (Z.leb_spec card 51); try lia; reflexivity.
Qed.

(** X15. [card_to_str] and [parse_card] are inverse on the deck: every card
    from 0 to 51 is written as two characters that [parse_card] reads back as
    the same card; any other number is refused by [card_to_str]. *)
Theorem card_text_round_trip (card : Z) :
  (0 <= card <= 51 ->
   exists text, CardText.card_to_str card = Ok text
                /\ CardText.parse_card text = Ok card
                /\ length text = 2%nat)
  /\ (~ 0 <= card <= 51 ->
      CardText.card_to_str card = Raise (CardParseError "Index carte hors bornes")).
Proof.
  split; [apply card_round_trip|apply card_to_str_out_of_range].
Qed.

Lemma card_text_round_trip_witness :
  exists text, CardText.card_to_str 25 = Ok text /\ CardText.parse_card text = Ok 25.
Proof.
  destruct (proj1 (card_text_round_trip 25)) as [text [E [P _]]]; [lia|].
  exists text. split; assumption.
Defined.

Lemma lookup_bound keys k i :
  CardText.lookup keys k = Ok i -> 0 <= i < Z.of_nat (length keys).
Proof.
  unfold CardText.lookup. destruct (Str.index_of k keys) as [j|] eqn:E; [|discriminate].
  intros H. inversion H; subst. apply index_of_bound in E. lia.
Qed.

Lemma parse_card_in_deck text card :
  CardText.parse_card text = Ok card -> 0 <= card <= 51.
Proof.
  unfold CardText.parse_card. intros H. crack H.
  inversion H; subst; clear H.
  match goal with
  | H1 : CardText.lookup CardText._RANKS _ = Ok _,
    H2 : CardText.lookup CardText._SUITS _ = Ok _ |- _ =>
      apply lookup_bound in H1; apply lookup_bound in H2;
      change (Z.of_nat (length CardText._RANKS)) with 13 in H1;
      change (Z.of_nat (length CardText._SUITS)) with 4 in H2
  end.
  lia.
Qed.

Lemma parse_cards_in_deck toks : forall cards,
  CardText.parse_cards toks = Ok cards ->
  Forall card_in_deck cards /\ length cards = length toks.
Proof.
  induction toks as [|t toks IH]; intros cards E.
  - simpl in E. inversion E; subst. split; [constructor|reflexivity].
  - cbn [CardText.parse_cards] in E. crack E. inversion E; subst; clear E.
    destruct (IH _ eq_refl) as [F L].
    split; [|simpl; congruence].
    constructor; auto. unfold card_in_deck. eapply parse_card_in_deck; eauto.
Qed.

Lemma parse_combo_valid text c1 c2 :
  CardText.parse_combo text = Ok (c1, c2) ->
  c1 <> c2 /\ card_in_deck c1 /\ card_in_deck c2.
Proof.
  intros H. unfold CardText.parse_combo in H. crack H.
  match goal with
  | E : CardText._tokenize_cards _ = Ok ?toks |- _ =>
      destruct toks as [|t0 [|t1 [|t2 toks']]]
  end; try discriminate H.
  crack H.
  match type of H with (if ?x =? ?y then _ else _) = _ =>
    destruct (x =? y) eqn:Q; [discriminate H|] end.
  apply Z.eqb_neq in Q. inversion H; subst; clear H.
  split; [exact Q|]. unfold card_in_deck.
  split; eapply parse_card_in_deck; eauto.
Qed.

Lemma parse_board_valid board cards :
  CardText.parse_board board = Ok cards ->
  In (length cards) [0; 3; 4; 5]%nat /\ NoDup cards /\ Forall card_in_deck cards.
Proof.
  intros H. unfold CardText.parse_board in H.
  destruct board as [[|c0 text']|];
    try (inversion H; subst; simpl; repeat split; auto; constructor).
  crack H.
  match type of H with (if negb ?x then _ else _) = _ => destruct x eqn:B end;
    [|discriminate H].
  cbv beta iota delta [negb] in H. crack H. inversion H; subst; clear H.
  match goal with H : CardText.parse_cards _ = Ok _ |- _ =>
    destruct (parse_cards_in_deck _ _ H) as [F L] end.
  split; [|split; [|exact F]].
  + rewrite L. apply orb_true_iff in B. destruct B as [B|B];
      [apply orb_true_iff in B; destruct B as [B|B]|];
      apply Nat.eqb_eq in B; rewrite B; simpl; auto.
  + match goal with H : Cards.ensure_no_duplicates _ = Ok _ |- _ =>
      unfold Cards.ensure_no_duplicates, Py.distinct in H;
      match type of H with (if (?x =? ?y)%nat then _ else _) = _ =>
        destruct (x =? y)%nat eqn:Q; [|discriminate H] end end.
    apply nodup_same_length. apply Nat.eqb_eq. exact Q.
Qed.

(** X16. Whatever the text, a hand that [parse_combo] returns is made of two
    different cards of the deck, and a board that [parse_board] returns has
    0, 3, 4 or 5 cards of the deck, all different; a missing or empty board
    text is the empty board. *)
Theorem parsed_hands_and_boards_are_valid (text : list ascii) :
  (forall c1 c2, CardText.parse_combo text = Ok (c1, c2) ->
     c1 <> c2 /\ card_in_deck c1 /\ card_in_deck c2)
  /\ (forall cards, CardText.parse_board (Some text) = Ok cards ->
        In (length cards) [0; 3; 4; 5]%nat /\ NoDup cards /\ Forall card_in_deck cards)
  /\ CardText.parse_board None = Ok []
  /\ CardText.parse_board (Some []) = Ok [].
Proof.
  split; [|split; [|split; reflexivity]].
  - intros c1 c2. apply parse_combo_valid.
  - intros cards. apply parse_board_valid.
Qed.

Lemma parsed_hands_and_boards_are_valid_witness :
  CardText.parse_combo (list_ascii_of_string "Ah Kh") = Ok (25, 24)
  /\ 25 <> 24 /\ card_in_deck 25 /\ card_in_deck 24.
Proof.
  assert (E : CardText.parse_combo (list_ascii_of_string "Ah Kh") = Ok (25, 24))
    by (vm_compute; reflexivity).
  split; [exact E|].
  exact (proj1 (parsed_hands_and_boards_are_valid (list_ascii_of_string "Ah Kh")) 25 24 E).
Defined.

(* ----------------------------------------------------------------- *)
(** *** Two cards written in the usual ways *)

Lemma all_hands_read_back :
  forallb (fun c1 =>
    forallb (fun c2 => (c1 =? c2) || forallb (hand_reads_back c1 c2) separators)
      (py_range 0 52))
    (py_range 0 52) = true.
Proof. vm_compute. reflexivity. Qed.

(** X17. Two different cards written one after the other, with nothing, a
    space, a hyphen or a comma between them, are read by [parse_combo] as
    those two cards in that order. *)
Theorem parse_combo_reads_two_cards (c1 c2 : Z) (sep : list ascii) :
  0 <= c1 <= 51 -> 0 <= c2 <= 51 -> c1 <> c2 -> In sep separators ->
  exists t1 t2,
    CardText.card_to_str c1 = Ok t1 /\ CardText.card_to_str c2 = Ok t2
    /\ CardText.parse_combo (t1 ++ sep ++ t2) = Ok (c1, c2).
Proof.
  intros H1 H2 D Hs. pose proof all_hands_read_back as C.
  rewrite forallb_forall in C. specialize (C c1). rewrite in_py_range in C.
  specialize (C ltac:(lia)). rewrite forallb_forall in C. specialize (C c2).
  rewrite in_py_range in C. specialize (C ltac:(lia)).
  apply orb_true_iff in C. destruct C as [C|C]; [apply Z.eqb_eq in C; contradiction|].
  rewrite forallb_forall in C. specialize (C sep Hs). unfold hand_reads_back in C.
  destruct (CardText.card_to_str c1) as [t1|]; [|discriminate].
  destruct (CardText.card_to_str c2) as [t2|]; [|discriminate].
  destruct (CardText.parse_combo (t1 ++ sep ++ t2)) as [[d1 d2]|] eqn:E; [|discriminate].
  apply andb_true_iff in C. destruct C as [A B].
  apply Z.eqb_eq in A. apply Z.eqb_eq in B. subst.
  exists t1, t2. repeat split; try reflexivity. exact E.
Qed.

Lemma parse_combo_reads_two_cards_witness :
  exists t1 t2,
    CardText.card_to_str 25 = Ok t1 /\ CardText.card_to_str 24 = Ok t2
    /\ CardText.parse_combo (t1 ++ ["-"%char] ++ t2) = Ok (25, 24).
Proof.
  apply (parse_combo_reads_two_cards 25 24 ["-"%char]); try lia.
  right. right. left. reflexivity.
Defined.

(* ----------------------------------------------------------------- *)
(** *** Cards written together in front of spaced cards *)

Lemma all_card_chars : forallb card_chars_ok (py_range 0 52) = true.
Proof. vm_compute. reflexivity. Qed.

Lemma In_chars c l : existsb (Str.eqb c) l = true -> In c l.
Proof.
  intros H. apply existsb_exists in H. destruct H as [x [I E]].
  apply Ascii.eqb_eq in E. subst. exact I.
Qed.

Lemma card_to_str_chars card :
  0 <= card <= 51 ->
  exists r s, CardText.card_to_str card = Ok [r; s]
              /\ In r CardText._RANKS /\ In s suit_letters.
Proof.
  intros H. pose proof all_card_chars as C. rewrite forallb_forall in C.
  specialize (C card). rewrite in_py_range in C. specialize (C ltac:(lia)).
  unfold card_chars_ok in C.
  destruct (CardText.card_to_str card) as [[|r [|s [|x l]]]|]; try discriminate.
  apply andb_true_iff in C. destruct C as [A B].
  exists r, s. split; [reflexivity|]. split; apply In_chars; assumption.
Qed.

Lemma token_at_card r s rest :
  In r CardText._RANKS -> In s suit_letters ->
  CardText.token_at (r :: s :: rest) = Some ([r], s, rest)
  /\ CardText.is_word r = true /\ CardText.is_word s = true.
Proof.
  intros Hr Hs. each_rank Hr; each_rank Hs; repeat split; reflexivity.
Qed.

Lemma finditer_skip fuel c rest :
  CardText.finditer (S fuel) true (c :: rest)
  = CardText.finditer fuel (CardText.is_word c) rest.
Proof. reflexivity. Qed.

Lemma finditer_here fuel c rest :
  CardText.finditer (S fuel) false (c :: rest)
  = match match CardText.token_at (c :: rest) with
          | Some (rk, su, r) =>
              match r with
              | [] => Some (rk, su, r)
              | x :: _ => if CardText.is_word x then None else Some (rk, su, r)
              end
          | None => None
          end with
    | Some (rk, su, r) => (rk, su) :: CardText.finditer fuel true r
    | None => CardText.finditer fuel (CardText.is_word c) rest
    end.
Proof. reflexivity. Qed.

Lemma finditer_compact_pair r1 s1 r2 s2 fuel rest :
  In r1 CardText._RANKS -> In s1 suit_letters ->
  In r2 CardText._RANKS -> In s2 suit_letters ->
  CardText.finditer (S (S (S (S (S fuel))))) false
    (r1 :: s1 :: r2 :: s2 :: " "%char :: rest)
  = CardText.finditer fuel false rest.
Proof.
  intros Hr1 Hs1 Hr2 Hs2.
  destruct (token_at_card r1 s1 (r2 :: s2 :: " "%char :: rest) Hr1 Hs1) as [T1 [W1 V1]].
  destruct (token_at_card r2 s2 (" "%char :: rest) Hr2 Hs2) as [_ [W2 V2]].
  rewrite finditer_here, T1, W2, W1.
  rewrite finditer_skip, V1, finditer_skip, W2, finditer_skip, V2, finditer_skip.
  reflexivity.
Qed.

Lemma finditer_spaced_card r s fuel rest :
  In r CardText._RANKS -> In s suit_letters ->
  CardText.finditer (S (S fuel)) false (r :: s :: " "%char :: rest)
  = ([r], s) :: CardText.finditer fuel false rest.
Proof.
  intros Hr Hs.
  destruct (token_at_card r s (" "%char :: rest) Hr Hs) as [T [W V]].
  rewrite finditer_here, T.
  change (CardText.is_word " "%char) with false. cbv iota.
  rewrite finditer_skip. reflexivity.
Qed.

Lemma finditer_last_card r s fuel :
  In r CardText._RANKS -> In s suit_letters ->
  CardText.finditer (S fuel) false [r; s] = [([r], s)].
Proof.
  intros Hr Hs.
  destruct (token_at_card r s [] Hr Hs) as [T [W V]].
  rewrite finditer_here, T. destruct fuel; reflexivity.
Qed.

Lemma canonical_token r s :
  In r CardText._RANKS -> In s suit_letters ->
  CardText._norm_rank [r] = Ok r
  /\ (exists u, CardText._norm_suit [s] = Ok u /\ Str.lower u = s)
  /\ Str.is_space r = false /\ Str.is_space s = false.
Proof.
  intros Hr Hs. each_rank Hr; each_rank Hs;
    (split; [reflexivity|split; [eexists; split; reflexivity|split; reflexivity]]).
Qed.

Lemma strip_unchanged first middle last :
  Str.is_space first = false -> Str.is_space last = false ->
  Str.strip (first :: middle ++ [last]) = first :: middle ++ [last].
Proof.
  intros Hf Hl. unfold Str.strip.
  assert (L : Str.lstrip (first :: middle ++ [last]) = first :: middle ++ [last]).
  { cbn [Str.lstrip]. rewrite Hf. reflexivity. }
  rewrite L.
  assert (R : rev (first :: middle ++ [last]) = last :: rev (first :: middle)).
  { change (first :: middle ++ [last]) with ((first :: middle) ++ [last]).
    rewrite rev_app_distr. reflexivity. }
  rewrite R.
  assert (L2 : Str.lstrip (last :: rev (first :: middle)) = last :: rev (first :: middle)).
  { cbn [Str.lstrip]. rewrite Hl. reflexivity. }
  rewrite L2, <- R. apply rev_involutive.
Qed.

Lemma tokens_of_spaced_cards blob ms :
  CardText.canonical_tokens ms = Ok (map (fun m => [hd " "%char (fst m); snd m]) ms) ->
  ms <> [] ->
  Str.strip blob = blob ->
  CardText.finditer (length blob) false blob = ms ->
  CardText._tokenize_cards blob = Ok (map (fun m => [hd " "%char (fst m); snd m]) ms).
Proof.
  intros C N S F. unfold CardText._tokenize_cards.
  rewrite S, F, C. cbv beta iota delta [bind].
  destruct ms as [|m ms]; [congruence|]. reflexivity.
Qed.

Lemma canonical_tokens_cards ms :
  Forall (fun m => exists r, fst m = [r] /\ In r CardText._RANKS /\ In (snd m) suit_letters) ms ->
  CardText.canonical_tokens ms = Ok (map (fun m => [hd " "%char (fst m); snd m]) ms).
Proof.
  induction 1 as [|[g s] ms [r [E [Hr Hs]]] _ IH]; [reflexivity|].
  simpl in E, Hs. subst g.
  destruct (canonical_token r s Hr Hs) as [A [[u [B L]] _]].
  cbn [CardText.canonical_tokens]. rewrite A, B, IH.
  cbv beta iota delta [bind]. cbn [map fst snd hd]. rewrite L. reflexivity.
Qed.

Lemma glued_pair_is_dropped a b c d e ta tb tc td te :
  CardText.card_to_str a = Ok ta -> CardText.card_to_str b = Ok tb ->
  CardText.card_to_str c = Ok tc -> CardText.card_to_str d = Ok td ->
  CardText.card_to_str e = Ok te ->
  0 <= a <= 51 -> 0 <= b <= 51 -> 0 <= c <= 51 -> 0 <= d <= 51 -> 0 <= e <= 51 ->
  CardText._tokenize_cards (glued_then_spaced ta tb [tc; td]) = Ok [tc; td]
  /\ CardText._tokenize_cards (glued_then_spaced ta tb [tc; td; te]) = Ok [tc; td; te].
Proof.
  intros Ea Eb Ec Ed Ee Ha Hb Hc Hd He.
  destruct (card_to_str_chars a Ha) as [ra [sa [Ta [Ra Sa]]]].
  destruct (card_to_str_chars b Hb) as [rb [sb [Tb [Rb Sb]]]].
  destruct (card_to_str_chars c Hc) as [rc [sc [Tc [Rc Sc]]]].
  destruct (card_to_str_chars d Hd) as [rd [sd [Td [Rd Sd]]]].
  destruct (card_to_str_chars e He) as [re [se [Te [Re Se]]]].
  rewrite Ta in Ea. rewrite Tb in Eb. rewrite Tc in Ec. rewrite Td in Ed. rewrite Te in Ee.
  injection Ea as <-. injection Eb as <-. injection Ec as <-. injection Ed as <-.
  injection Ee as <-.
  destruct (canonical_token ra sa Ra Sa) as [_ [_ [Xa _]]].
  destruct (canonical_token rd sd Rd Sd) as [_ [_ [_ Yd]]].
  destruct (canonical_token re se Re Se) as [_ [_ [_ Ye]]].
  split.
  - apply (tokens_of_spaced_cards _ [([rc], sc); ([rd], sd)]).
    + apply canonical_tokens_cards. repeat (apply Forall_cons; [eexists; cbn [fst snd]; split; [reflexivity|split; assumption]|]); apply Forall_nil.
    + discriminate.
    + exact (strip_unchanged ra [sa; rb; sb; " "; rc; sc; " "; rd]%char sd Xa Yd).
    + cbn [glued_then_spaced app concat map length].
      rewrite finditer_compact_pair, finditer_spaced_card, finditer_last_card by assumption.
      reflexivity.
  - apply (tokens_of_spaced_cards _ [([rc], sc); ([rd], sd); ([re], se)]).
    + apply canonical_tokens_cards. repeat (apply Forall_cons; [eexists; cbn [fst snd]; split; [reflexivity|split; assumption]|]); apply Forall_nil.
    + discriminate.
    + exact (strip_unchanged ra [sa; rb; sb; " "; rc; sc; " "; rd; sd; " "; re]%char se Xa Ye).
    + cbn [glued_then_spaced app concat map length].
      rewrite finditer_compact_pair, !finditer_spaced_card, finditer_last_card by assumption.
      reflexivity.
Qed.

Lemma card_to_str_in_deck card text :
  CardText.card_to_str card = Ok text ->
  0 <= card <= 51 /\ CardText.parse_card text = Ok card.
Proof.
  intros E.
  assert (R : 0 <= card <= 51).
  { destruct (Z_le_dec 0 card) as [A|A]; [destruct (Z_le_dec card 51) as [B|B]|];
      [lia|exfalso..];
      rewrite card_to_str_out_of_range in E by lia; discriminate. }
  split; [exact R|].
  destruct (card_round_trip card R) as [t [E' [P _]]]. congruence.
Qed.

(** X18. When the first two cards of a text are written together and the
    following ones are separated by spaces, the first two are dropped without
    an error: a hand of four such cards is read as its last two cards, and a
    board of five as its last three. *)
Theorem cards_written_together_are_dropped (a b c d e : Z) (ta tb tc td te : list ascii) :
  CardText.card_to_str a = Ok ta -> CardText.card_to_str b = Ok tb ->
  CardText.card_to_str c = Ok tc -> CardText.card_to_str d = Ok td ->
  CardText.card_to_str e = Ok te ->
  c <> d -> c <> e -> d <> e ->
  CardText.parse_combo (glued_then_spaced ta tb [tc; td]) = Ok (c, d)
  /\ CardText.parse_board (Some (glued_then_spaced ta tb [tc; td; te])) = Ok [c; d; e].
Proof.
  intros Ea Eb Ec Ed Ee Ncd Nce Nde.
  destruct (card_to_str_in_deck _ _ Ea) as [Ha _].
  destruct (card_to_str_in_deck _ _ Eb) as [Hb _].
  destruct (card_to_str_in_deck _ _ Ec) as [Hc Pc].
  destruct (card_to_str_in_deck _ _ Ed) as [Hd Pd].
  destruct (card_to_str_in_deck _ _ Ee) as [He Pe].
  destruct (glued_pair_is_dropped a b c d e ta tb tc td te) as [T2 T3]; try assumption.
  split.
  - unfold CardText.parse_combo. rewrite T2. cbv beta iota delta [bind].
    rewrite Pc, Pd. destruct (Z.eqb_spec c d); [contradiction|reflexivity].
  - assert (G : exists x l, glued_then_spaced ta tb [tc; td; te] = x :: l).
    { destruct (card_to_str_chars a Ha) as [ra [sa [Ta _]]].
      rewrite Ta in Ea. injection Ea as <-. eexists; eexists; reflexivity. }
    destruct G as [x [l G]].
    unfold CardText.parse_board. rewrite G. cbv beta iota. rewrite <- G, T3.
    cbv beta iota delta [bind]. cbn [length Nat.eqb orb negb CardText.parse_cards].
    rewrite Pc, Pd, Pe. cbv beta iota delta [bind].
    assert (N : NoDup [c; d; e]).
    { repeat constructor; simpl; intuition congruence. }
    unfold Cards.ensure_no_duplicates, Py.distinct.
    rewrite (nodup_fixed_point Z.eq_dec N). reflexivity.
Qed.

Lemma cards_written_together_are_dropped_witness :
  CardText.parse_combo (list_ascii_of_string "AsKs Qd Jd") = Ok (36, 35)
  /\ CardText.parse_board (Some (list_ascii_of_string "AsKs 2c 3d 4h")) = Ok [39; 27; 15].
Proof.
  destruct (cards_written_together_are_dropped 12 11 36 35 39 _ _ _ _ _
              eq_refl eq_refl eq_refl eq_refl eq_refl) as [A _]; try lia.
  destruct (cards_written_together_are_dropped 12 11 39 27 15 _ _ _ _ _
              eq_refl eq_refl eq_refl eq_refl eq_refl) as [_ B]; try lia.
  split; [exact A|exact B].
Defined.

(* ----------------------------------------------------------------- *)
(** *** The entry points on texts *)

Lemma deck_without_inv known deck :
  Cards.deck_without known = Ok deck -> NoDup known /\ Forall card_in_deck known.
Proof.
  intros E.
  destruct (check_bounds_inv known) as [[B F]|[msg [B F]]];
    unfold Cards.deck_without in E; rewrite B in E; [|discriminate E].
  cbv beta iota delta [bind] in E.
  unfold Cards.ensure_no_duplicates, Py.distinct in E.
  destruct (Nat.eqb_spec (length (nodup Z.eq_dec known)) (length known)) as [L|L];
    [|discriminate E].
  split; [apply nodup_same_length; exact L|exact F].
Qed.

Lemma equity_hu_text_known `{PyRandom} os hero villain board iters seed r :
  equity_hu_text os hero villain board iters seed = Ok r ->
  exists h1 h2 v1 v2 cards,
    CardText.parse_combo hero = Ok (h1, h2)
    /\ CardText.parse_combo villain = Ok (v1, v2)
    /\ CardText.parse_board board = Ok cards
    /\ NoDup (h1 :: h2 :: v1 :: v2 :: cards)
    /\ Forall card_in_deck (h1 :: h2 :: v1 :: v2 :: cards)
    /\ In (length cards) [0; 3; 4; 5]%nat.
Proof.
  unfold equity_hu_text. intros E. crack E.
  match goal with
  | A : CardText.parse_combo hero = Ok ?h, B : CardText.parse_combo villain = Ok ?v,
    C : CardText.parse_board board = Ok ?b |- _ =>
      destruct h as [h1 h2]; destruct v as [v1 v2];
      exists h1, h2, v1, v2, b; repeat (split; [reflexivity|]);
      destruct (parse_board_valid _ _ C) as [L _]
  end.
  unfold equity_hu in E. crack E.
  match goal with D : Cards.deck_without _ = Ok _ |- _ =>
    destruct (deck_without_inv _ _ D) as [N F] end.
  auto.
Qed.

Lemma equity_vs_range_text_known `{PyRandom} `{PySetOrder}
    os hero villain_range board iters seed r :
  equity_vs_range_text os hero villain_range board iters seed = Ok r ->
  exists h1 h2 cards,
    CardText.parse_combo hero = Ok (h1, h2)
    /\ CardText.parse_board board = Ok cards
    /\ NoDup (h1 :: h2 :: cards)
    /\ Forall card_in_deck (h1 :: h2 :: cards)
    /\ In (length cards) [0; 3; 4; 5]%nat.
Proof.
  unfold equity_vs_range_text. intros E. crack E.
  match goal with
  | A : CardText.parse_combo hero = Ok ?h,
    C : CardText.parse_board board = Ok ?b |- _ =>
      destruct h as [h1 h2];
      exists h1, h2, b; repeat (split; [reflexivity|]);
      destruct (parse_board_valid _ _ C) as [L _]
  end.
  unfold equity_vs_range in E. crack E.
  match type of E with match ?a with [] => _ | _ :: _ => _ end = _ =>
    destruct a eqn:A; [discriminate E|] end.
  crack E.
  match goal with D : Cards.deck_without _ = Ok _ |- _ =>
    destruct (deck_without_inv _ _ D) as [N F] end.
  auto.
Qed.

(** X19. Called on texts, [equity_hu] and [equity_vs_range] return a report
    only if the hand and board texts were read as cards of the deck that are
    all different (hero, villain and board for the first; hero and board for
    the second), the board having 0, 3, 4 or 5 cards. *)
Theorem reports_only_for_distinct_known_cards `{PyRandom} `{PySetOrder}
    (os : entropy) (hero villain : list ascii) (villain_range : string)
    (board : option (list ascii)) (iters : Z) (seed : option Z) (r : report) :
  (equity_hu_text os hero villain board iters seed = Ok r ->
   exists h1 h2 v1 v2 cards,
     CardText.parse_combo hero = Ok (h1, h2)
     /\ CardText.parse_combo villain = Ok (v1, v2)
     /\ CardText.parse_board board = Ok cards
     /\ NoDup (h1 :: h2 :: v1 :: v2 :: cards)
     /\ Forall card_in_deck (h1 :: h2 :: v1 :: v2 :: cards)
     /\ In (length cards) [0; 3; 4; 5]%nat)
  /\ (equity_vs_range_text os hero villain_range board iters seed = Ok r ->
      exists h1 h2 cards,
        CardText.parse_combo hero = Ok (h1, h2)
        /\ CardText.parse_board board = Ok cards
        /\ NoDup (h1 :: h2 :: cards)
        /\ Forall card_in_deck (h1 :: h2 :: cards)
        /\ In (length cards) [0; 3; 4; 5]%nat).
Proof.
  split; [apply equity_hu_text_known|apply equity_vs_range_text_known].
Qed.

Lemma reports_only_for_distinct_known_cards_witness :
  exists h1 h2 v1 v2 cards,
    CardText.parse_combo (list_ascii_of_string "AhKh") = Ok (h1, h2)
    /\ CardText.parse_combo (list_ascii_of_string "Qd Qc") = Ok (v1, v2)
    /\ CardText.parse_board (Some (list_ascii_of_string "2c 7d 9h Ts 3s")) = Ok cards
    /\ NoDup (h1 :: h2 :: v1 :: v2 :: cards)
    /\ Forall card_in_deck (h1 :: h2 :: v1 :: v2 :: cards)
    /\ In (length cards) [0; 3; 4; 5]%nat.
Proof.
  assert (E : exists r,
             @equity_hu_text Reference.lcg 0 (list_ascii_of_string "AhKh")
               (list_ascii_of_string "Qd Qc")
               (Some (list_ascii_of_string "2c 7d 9h Ts 3s")) 1000 (Some 7) = Ok r)
    by (vm_compute; eexists; reflexivity).
  destruct E as [r E].
  exact (proj1 (@reports_only_for_distinct_known_cards Reference.lcg Reference.in_order
                  0 _ _ "KK+"%string _ 1000 (Some 7) r) E).
Defined.
